(** * Video normalisation and merge tool: a shallow embedding of
      [统一视频方向.py] with its external collaborators as an explicit host.

    The script probes every candidate clip with [ffprobe], builds an ffmpeg
    filter chain and encoder argument list, transcodes the clip into a
    scratch directory, collects one concat-list line per successful
    transcode and finally asks ffmpeg to stream-copy the list into one file.

    Python values are modelled as the script uses them: [str] as [string]
    (a byte string: the script's non-ASCII literals are their UTF-8 bytes),
    [int] as [Z], lists as [list], exceptions as a result type.  Everything
    the script asks of the operating system goes through the class [Host];
    every side effect is recorded in a trace so that statements such as
    "ffmpeg is not invoked" are statements about that trace. *)

From Stdlib Require Import String Ascii List ZArith Bool Arith Lia.
From Stdlib Require Import Decimal DecimalString.
From Stdlib Require DecimalPos DecimalNat.
Import ListNotations.

Local Open Scope string_scope.
Local Open Scope list_scope.

(* ================================================================== *)
(** * Python string and integer primitives used by the script *)
(* ================================================================== *)

Module PyStr.

(** The line feed, [chr(10)]. *)
Definition nl : string := String (ascii_of_nat 10) EmptyString.

(** [str.isspace] restricted to ASCII: TAB, LF, VT, FF, CR, the four
    separators 0x1c-0x1f and the space.  Whitespace outside ASCII is not
    modelled. *)
Definition isspace (c : ascii) : bool :=
  let n := nat_of_ascii c in
  ((9 <=? n)%nat && (n <=? 13)%nat) || ((28 <=? n)%nat && (n <=? 32)%nat).

Fixpoint lstrip_chars (cs : list ascii) : list ascii :=
  match cs with
  | [] => []
  | c :: cs' => if isspace c then lstrip_chars cs' else cs
  end.

(** [s.strip()] *)
Definition strip (s : string) : string :=
  string_of_list_ascii
    (List.rev
       (lstrip_chars (List.rev (lstrip_chars (list_ascii_of_string s))))).

(** [c in s] for a one-character [c] *)
Fixpoint contains_char (c : ascii) (s : string) : bool :=
  match s with
  | EmptyString => false
  | String a s' => if Ascii.eqb a c then true else contains_char c s'
  end.

(** [s.split(c)] for a one-character separator: never the empty list. *)
Fixpoint split (c : ascii) (s : string) : list string :=
  match s with
  | EmptyString => [EmptyString]
  | String a s' =>
      if Ascii.eqb a c then EmptyString :: split c s'
      else match split c s' with
           | h :: t => String a h :: t
           | [] => [String a EmptyString]
           end
  end.

(** [s.replace(a, b)] for one-character [a] and [b] *)
Fixpoint replace_char (a b : ascii) (s : string) : string :=
  match s with
  | EmptyString => EmptyString
  | String c s' => String (if Ascii.eqb c a then b else c) (replace_char a b s')
  end.

(** [sep.join(parts)] *)
Definition join (sep : string) (parts : list string) : string :=
  String.concat sep parts.

(** [str(n)] for an [int] *)
Definition str_of_int (z : Z) : string :=
  NilZero.string_of_int (Z.to_int z).

Fixpoint zeros (n : nat) : string :=
  match n with
  | O => EmptyString
  | S n' => String "0" (zeros n')
  end.

(** [f"{n:04d}"] for [n >= 0]: zero-padded to four digits, longer numbers
    are kept whole. *)
Definition format_04d (n : nat) : string :=
  let s := NilZero.string_of_uint (Nat.to_uint n) in
  zeros (4 - String.length s) ++ s.

Definition digit_val (c : ascii) : option Z :=
  let n := nat_of_ascii c in
  if (48 <=? n)%nat && (n <=? 57)%nat then Some (Z.of_nat (n - 48)) else None.

(** Decimal digits with single underscores allowed between digits, as
    [int] accepts them.  [after_digit] says whether the previous character
    was a digit. *)
Fixpoint parse_digits (acc : Z) (after_digit : bool) (cs : list ascii)
  : option Z :=
  match cs with
  | [] => if after_digit then Some acc else None
  | c :: cs' =>
      match digit_val c with
      | Some d => parse_digits (10 * acc + d) true cs'
      | None =>
          if Ascii.eqb c "_" && after_digit
          then match cs' with
               | [] => None
               | _ => parse_digits acc false cs'
               end
          else None
      end
  end.

(** The whitespace [int] skips around an ASCII numeral: TAB, LF, VT, FF, CR
    and the space.  (The separators 0x1c-0x1f, which [strip] removes, are
    not among them: [int] raises on them.) *)
Definition int_isspace (c : ascii) : bool :=
  let n := nat_of_ascii c in
  ((9 <=? n)%nat && (n <=? 13)%nat) || (n =? 32)%nat.

Fixpoint int_lstrip_chars (cs : list ascii) : list ascii :=
  match cs with
  | [] => []
  | c :: cs' => if int_isspace c then int_lstrip_chars cs' else cs
  end.

(** [int(s)] on a [str] of ASCII characters: surrounding whitespace is
    skipped, one sign is allowed, [None] stands for [ValueError].  Decimal
    digits outside ASCII are not modelled, and neither is the limit on the
    number of digits that CPython 3.11 and later apply by default (4300):
    statements that depend on it carry the bound as a hypothesis. *)
Definition int (s : string) : option Z :=
  match List.rev
          (int_lstrip_chars
             (List.rev (int_lstrip_chars (list_ascii_of_string s)))) with
  | "-"%char :: cs => option_map Z.opp (parse_digits 0 false cs)
  | "+"%char :: cs => parse_digits 0 false cs
  | cs => parse_digits 0 false cs
  end.

End PyStr.

(* ================================================================== *)
(** * Exceptions, results and the effect monad *)
(* ================================================================== *)

(** The exception classes that can occur in a run. [KeyboardInterrupt] is
    the one that does not derive from [Exception]. *)
Inductive exn : Type :=
| CalledProcessError
| FileNotFoundError
| OSError
| UnicodeDecodeError
| ValueError
| EOFError
| KeyboardInterrupt.

(** [isinstance(e, Exception)] *)
Definition is_Exception (e : exn) : bool :=
  match e with
  | KeyboardInterrupt => false
  | _ => true
  end.

(** [isinstance(e, subprocess.CalledProcessError)] *)
Definition is_CalledProcessError (e : exn) : bool :=
  match e with
  | CalledProcessError => true
  | _ => false
  end.

Inductive result (A : Type) : Type :=
| Ok (a : A)
| Raise (e : exn).
Arguments Ok {A} a.
Arguments Raise {A} e.

(** What the host's process launcher does with a command line: the launch
    (or the decoding of the captured output) raises, or the process exits
    with a return code and its captured standard output. *)
Inductive run_outcome : Type :=
| RunRaised (e : exn)
| Exited (returncode : Z) (stdout : string).

(** Observable side effects, in the order the script performs them. *)
Inductive event : Type :=
| EvPrint (text : string)
| EvInput (prompt : string)
| EvRun (cmd : list string) (outcome : run_outcome)
| EvRmtree (path : string)
| EvMakedirs (path : string)
| EvRemove (path : string)
| EvWrite (path : string) (content : string).

(** The operating system as the script sees it.  [W] is the state of the
    world (file system, terminal, installed tools). *)
Class Host (W : Type) : Type := {
  path_join : string -> string -> string;      (* os.path.join *)
  abspath : string -> string;                  (* os.path.abspath *)
  basename : string -> string;                 (* os.path.basename *)
  host_input : string -> W -> result string * W;     (* input *)
  host_exists : string -> W -> bool;                 (* os.path.exists *)
  host_rmtree : string -> W -> result unit * W;      (* shutil.rmtree *)
  host_makedirs : string -> W -> result unit * W;    (* os.makedirs *)
  host_remove : string -> W -> result unit * W;      (* os.remove *)
  host_glob : string -> W -> list string;            (* glob.glob *)
  host_run : list string -> W -> run_outcome * W;    (* process launch *)
  host_write : string -> string -> W -> result unit * W  (* open + write *)
}.

Record state (W : Type) : Type := mkState {
  world : W;
  trace : list event
}.
Arguments mkState {W} world trace.
Arguments world {W} s.
Arguments trace {W} s.

(** Computations: state passing with Python exceptions. *)
Definition M (W A : Type) : Type := state W -> result A * state W.

Definition ret {W A} (a : A) : M W A := fun st => (Ok a, st).

Definition raise {W A} (e : exn) : M W A := fun st => (Raise e, st).

Definition bind {W A B} (m : M W A) (k : A -> M W B) : M W B :=
  fun st =>
    match m st with
    | (Ok a, st') => k a st'
    | (Raise e, st') => (Raise e, st')
    end.

(** [try: body  except <class>: handler] *)
Definition try_except {W A} (body : M W A) (catches : exn -> bool)
    (handler : M W A) : M W A :=
  fun st =>
    match body st with
    | (Ok a, st') => (Ok a, st')
    | (Raise e, st') => if catches e then handler st' else (Raise e, st')
    end.

Declare Scope py_scope.
Delimit Scope py_scope with py.
Notation "x <- m ;; k" := (bind m (fun x => k))
  (at level 61, m at next level, right associativity) : py_scope.
Notation "m ;; k" := (bind m (fun _ => k))
  (at level 61, right associativity) : py_scope.
Local Open Scope py_scope.

Definition emit {W} (e : event) (st : state W) : state W :=
  mkState (world st) (trace st ++ [e]).

(** A host operation with a [result]: performed on the world, recorded. *)
Definition perform {W A} (op : W -> result A * W) (e : event) : M W A :=
  fun st =>
    let (r, w') := op (world st) in
    (r, emit e (mkState w' (trace st))).

(** [for x in xs: acc = body(x, acc)], an exception ends the loop. *)
Fixpoint for_each {W A S} (xs : list A) (body : A -> S -> M W S) (acc : S)
  : M W S :=
  match xs with
  | [] => ret acc
  | x :: xs' => acc' <- body x acc ;; for_each xs' body acc'
  end.

(* ================================================================== *)
(** * The script *)
(* ================================================================== *)

Import PyStr.

(** ** Configuration *)

Definition INPUT_DIR : string := ".".
Definition TEMP_DIR : string := "processed_temp".
Definition OUTPUT_FILE : string := "final_merged_video.mp4".
Definition VIDEO_EXTS : list string := ["mp4"; "mov"; "avi"; "mkv"; "flv"; "ts"].

Definition TARGET_WIDTH : Z := 1920.
Definition TARGET_HEIGHT : Z := 1080.

(** ** Pure parts *)

(** [common_args] of [get_encoding_args]: audio, frame rate, time base. *)
Definition common_args : list string :=
  ["-r"; "30";
   "-video_track_timescale"; "15360";
   "-c:a"; "aac";
   "-ar"; "44100";
   "-ac"; "2";
   "-b:a"; "192k";
   "-y"].

(** [video_args] of the branch [mode == '2'] (NVIDIA NVENC). *)
Definition gpu_video_args : list string :=
  ["-c:v"; "h264_nvenc";
   "-preset"; "p4";
   "-cq"; "26";
   "-rc"; "vbr"].

(** [video_args] of the [else] branch (libx264). *)
Definition cpu_video_args : list string :=
  ["-c:v"; "libx264";
   "-preset"; "fast";
   "-crf"; "23"].

(** The value an option takes in an ffmpeg argument list: the argument that
    follows the first occurrence of the option. *)
Fixpoint arg_value (opt : string) (args : list string) : option string :=
  match args with
  | [] => None
  | a :: rest =>
      if String.eqb a opt
      then match rest with
           | v :: _ => Some v
           | [] => None
           end
      else arg_value opt rest
  end.

(** What [get_video_dimensions] hands back: the tuple [0, 0], or the
    iterator [map(int, parts)], whose conversions have not run yet. *)
Inductive dims_value : Type :=
| DimsTuple (w h : Z)
| DimsMap (parts : list string).

(** [width, height = v]: a tuple is taken apart; an iterator is run, every
    [int] that fails and every length other than two is a [ValueError]. *)
Definition unpack2 (v : dims_value) : result (Z * Z) :=
  match v with
  | DimsTuple w h => Ok (w, h)
  | DimsMap [a; b] =>
      match int a with
      | None => Raise ValueError
      | Some w =>
          match int b with
          | None => Raise ValueError
          | Some h => Ok (w, h)
          end
      end
  | DimsMap _ => Raise ValueError
  end.

Definition rotate_filter : string := "transpose=2".

(** [scale_filter] of [process_video_file], for a canvas [tw] x [th]. *)
Definition scale_filter_for (tw th : Z) : string :=
  ("scale=" ++ str_of_int tw ++ ":" ++ str_of_int th
     ++ ":force_original_aspect_ratio=decrease,"
     ++ "pad=" ++ str_of_int tw ++ ":" ++ str_of_int th
     ++ ":(ow-iw)/2:(oh-ih)/2,"
     ++ "setsar=1")%string.

Definition scale_filter : string := scale_filter_for TARGET_WIDTH TARGET_HEIGHT.

(** The list [filters] that [process_video_file] builds. *)
Definition build_filters (is_portrait : bool) : list string :=
  (if is_portrait then [rotate_filter] else []) ++ [scale_filter].

(** The filter chain of a clip of the given probed size. *)
Definition filters_for (width height : Z) : list string :=
  build_filters (height >? width)%Z.

(** The ffmpeg command line of [process_video_file]. *)
Definition transcode_cmd (input_file : string) (filters : list string)
    (encoding_args : list string) (output_path : string) : list string :=
  ["ffmpeg"; "-i"; input_file]
    ++ ["-vf"; join "," filters]
    ++ encoding_args
    ++ [output_path].

Definition probe_cmd (file_path : string) : list string :=
  ["ffprobe"; "-v"; "error"; "-select_streams"; "v:0";
   "-show_entries"; "stream=width,height"; "-of"; "csv=s=x:p=0"; file_path].

Definition concat_cmd (list_file output_file : string) : list string :=
  ["ffmpeg"; "-f"; "concat"; "-safe"; "0";
   "-i"; list_file;
   "-c"; "copy";
   output_file].

(** [f"file '{abs_path}'"] *)
Definition manifest_line (abs_path : string) : string :=
  ("file '" ++ abs_path ++ "'")%string.

(** [f"processed_{n:04d}.mp4"] *)
Definition temp_name (n : nat) : string :=
  ("processed_" ++ format_04d n ++ ".mp4")%string.

(** [check=True]: what [subprocess.run] makes of the launcher's outcome. *)
Definition check_returncode (o : run_outcome) : result string :=
  match o with
  | RunRaised e => Raise e
  | Exited code out =>
      if (code =? 0)%Z then Ok out else Raise CalledProcessError
  end.

(** ** Effectful parts *)

Section Script.

Context {W : Type} `{Host W}.

Definition print (text : string) : M W unit :=
  fun st => (Ok tt, emit (EvPrint text) st).

Definition input (prompt : string) : M W string :=
  perform (host_input prompt) (EvInput prompt).

Definition path_exists (p : string) : M W bool :=
  fun st => (Ok (host_exists p (world st)), st).

Definition rmtree (p : string) : M W unit :=
  perform (host_rmtree p) (EvRmtree p).

Definition makedirs (p : string) : M W unit :=
  perform (host_makedirs p) (EvMakedirs p).

Definition remove (p : string) : M W unit :=
  perform (host_remove p) (EvRemove p).

Definition glob (pattern : string) : M W (list string) :=
  fun st => (Ok (host_glob pattern (world st)), st).

Definition write_file (p content : string) : M W unit :=
  perform (host_write p content) (EvWrite p content).

(** [subprocess.run(cmd, check=True, ...)]: returns the captured standard
    output; a return code other than 0 raises [CalledProcessError]. *)
Definition subprocess_run (cmd : list string) : M W string :=
  fun st =>
    let (o, w') := host_run cmd (world st) in
    (check_returncode o, emit (EvRun cmd o) (mkState w' (trace st))).

Definition get_encoding_args (mode : string) : M W (list string) :=
  if String.eqb mode "2"
  then print "⚡ 已启用 NVIDIA GPU 加速 (h264_nvenc)" ;;
       ret (gpu_video_args ++ common_args)
  else print "🐢 已启用 CPU 编码 (libx264)" ;;
       ret (cpu_video_args ++ common_args).

Definition get_video_dimensions (file_path : string) : M W dims_value :=
  try_except
    (out <- subprocess_run (probe_cmd file_path) ;;
     let dim := strip out in
     if contains_char "x" dim
     then ret (DimsMap (split "x" dim))
     else ret (DimsTuple 0 0))
    is_Exception
    (print ("⚠️ 无法读取文件信息: " ++ basename file_path)%string ;;
     ret (DimsTuple 0 0)).

Definition process_video_file (input_file output_path : string)
    (encoding_args : list string) : M W bool :=
  dims <- get_video_dimensions input_file ;;
  match unpack2 dims with
  | Raise e => raise e
  | Ok (width, height) =>
      if (width =? 0)%Z then ret false
      else
        let filename := basename input_file in
        let is_portrait := (height >? width)%Z in
        print ("   🎞️ 处理中: " ++ filename ++ " (" ++ str_of_int width
                 ++ "x" ++ str_of_int height ++ ")")%string ;;
        (if is_portrait
         then print "      ↪️ 发现竖屏，正在逆时针旋转 90°..."
         else ret tt) ;;
        let filters := build_filters is_portrait in
        let cmd := transcode_cmd input_file filters encoding_args output_path in
        try_except
          (subprocess_run cmd ;;
           print "      ✅ 转码完成。" ;;
           ret true)
          is_CalledProcessError
          (print ("      ❌ 失败: " ++ filename
                    ++ " (请检查文件是否损坏或显卡驱动)")%string ;;
           ret false)
  end.

Definition merge_videos (list_file output_file : string) : M W unit :=
  print (nl ++ "🚀 开始合并所有片段到 " ++ output_file ++ " ...")%string ;;
  present <- path_exists output_file ;;
  (if present then remove output_file else ret tt) ;;
  try_except
    (subprocess_run (concat_cmd list_file output_file) ;;
     print (nl ++ "🎉 **大功告成！**")%string ;;
     print ("📂 输出文件: " ++ abspath output_file)%string)
    is_CalledProcessError
    (print "❌ 合并阶段失败。").

(** The body of the inner loop of [main]: one candidate file. *)
Definition process_candidate (encoding_args : list string)
    (input_file : string) (valid_files : list string) : M W (list string) :=
  let temp := temp_name (List.length valid_files) in
  let output_path := path_join TEMP_DIR temp in
  ok <- process_video_file input_file output_path encoding_args ;;
  if ok
  then let abs_path := replace_char "\" "/" (abspath output_path) in
       ret (valid_files ++ [manifest_line abs_path])
  else ret valid_files.

(** The body of the outer loop of [main]: one extension. *)
Definition process_extension (encoding_args : list string)
    (ext : string) (valid_files : list string) : M W (list string) :=
  found <- glob (path_join INPUT_DIR ("*." ++ ext)%string) ;;
  let files :=
    filter (fun f => negb (String.eqb (abspath f) (abspath OUTPUT_FILE))) found in
  for_each files (process_candidate encoding_args) valid_files.

(** [main] up to and including the scratch directory reset. *)
Definition main_setup : M W (list string) :=
  print "🎬 视频自动统一与合并工具 (GPU/CPU 选择版)" ;;
  print "------------------------------------------------" ;;
  print "请选择编码模式：" ;;
  print " [1] CPU (libx264)    - 默认，兼容性最好，速度较慢" ;;
  print " [2] GPU (h264_nvenc) - 需要 NVIDIA 显卡，速度极快" ;;
  line <- input (nl ++ "请输入选项 (1 或 2，回车默认 1): ")%string ;;
  let choice := strip line in
  current_encoding_args <- get_encoding_args choice ;;
  present <- path_exists TEMP_DIR ;;
  (if present then rmtree TEMP_DIR else ret tt) ;;
  makedirs TEMP_DIR ;;
  ret current_encoding_args.

(** [main], step 2: scan and process; the result is [valid_files]. *)
Definition main_scan (encoding_args : list string) : M W (list string) :=
  for_each VIDEO_EXTS (process_extension encoding_args) [].

(** [main], steps 3 and 4: write the list and merge. *)
Definition main_finish (valid_files : list string) : M W unit :=
  let list_file_path := path_join TEMP_DIR "file_list.txt" in
  match valid_files with
  | [] => print (nl ++ "⚠️ 未找到视频文件。")%string
  | _ =>
      write_file list_file_path (join nl valid_files) ;;
      merge_videos list_file_path OUTPUT_FILE ;;
      print (nl ++ "💡 提示: 临时文件保存在 '" ++ TEMP_DIR ++ "' 目录。")%string
  end.

Definition main : M W unit :=
  current_encoding_args <- main_setup ;;
  valid_files <- main_scan current_encoding_args ;;
  main_finish valid_files.

End Script.

(* ================================================================== *)
(** * Reading a trace *)
(* ================================================================== *)

(** The command lines of the script are told apart by their first two
    words: [ffmpeg -i ...] transcodes, [ffmpeg -f ...] concatenates. *)
Definition is_transcode (cmd : list string) : bool :=
  match cmd with
  | a :: b :: _ => String.eqb a "ffmpeg" && String.eqb b "-i"
  | _ => false
  end.

Definition is_concat (cmd : list string) : bool :=
  match cmd with
  | a :: b :: _ => String.eqb a "ffmpeg" && String.eqb b "-f"
  | _ => false
  end.

(** Output paths (the last word of the command line) of the transcodes that
    exited with 0, in trace order. *)
Definition ok_outputs (evs : list event) : list string :=
  flat_map (fun e =>
    match e with
    | EvRun cmd (Exited code _) =>
        if is_transcode cmd && (code =? 0)%Z then [last cmd EmptyString] else []
    | _ => []
    end) evs.

(** All transcoding invocations, whatever their outcome. *)
Definition transcode_runs (evs : list event) : list (list string) :=
  flat_map (fun e =>
    match e with
    | EvRun cmd _ => if is_transcode cmd then [cmd] else []
    | _ => []
    end) evs.

(** Outcomes of the concatenation invocations. *)
Definition concat_runs (evs : list event) : list run_outcome :=
  flat_map (fun e =>
    match e with
    | EvRun cmd o => if is_concat cmd then [o] else []
    | _ => []
    end) evs.

(** Files written, with their content. *)
Definition writes (evs : list event) : list (string * string) :=
  flat_map (fun e =>
    match e with
    | EvWrite p c => [(p, c)]
    | _ => []
    end) evs.

(** Console lines. *)
Definition printed (evs : list event) : list string :=
  flat_map (fun e =>
    match e with
    | EvPrint s => [s]
    | _ => []
    end) evs.

(** [p in s] for strings. *)
Fixpoint is_infix (p s : string) : bool :=
  String.prefix p s ||
  match s with
  | EmptyString => false
  | String _ s' => is_infix p s'
  end.

(** The manifest line of a normalized output. *)
Definition manifest_entry {W} `{Host W} (output_path : string) : string :=
  manifest_line (replace_char "\" "/" (abspath output_path)).

(** The scratch path of the [n]-th normalized clip. *)
Definition temp_path {W} `{Host W} (n : nat) : string :=
  path_join TEMP_DIR (temp_name n).

(** What the scanning loop maintains: starting with the list [valid_files]
    and producing the events [new], it neither concatenates nor writes; if it
    ends normally with [valid_files'], one line was appended for each
    successful transcode, in order, and these transcodes wrote the
    consecutively numbered scratch files. *)
Definition scanned {W} `{Host W} (valid_files : list string)
    (new : list event) (r : result (list string)) : Prop :=
  concat_runs new = []
  /\ writes new = []
  /\ match r with
     | Ok valid_files' =>
         valid_files' = valid_files ++ map manifest_entry (ok_outputs new)
         /\ ok_outputs new =
              map temp_path
                (seq (List.length valid_files) (List.length (ok_outputs new)))
     | Raise _ => True
     end.

(* ================================================================== *)
(** * A small simulated host, to run the script on concrete inputs *)
(* ================================================================== *)

Module Sim.

(** A world that does not change: what the user types, what each glob
    pattern matches, and how the tools answer for each file. *)
Record world : Type := mkWorld {
  typed : string;
  listing : string -> list string;
  probe_answer : string -> run_outcome;
  transcode_answer : string -> run_outcome;
  concat_answer : run_outcome
}.

Definition run (cmd : list string) (w : world) : run_outcome :=
  match cmd with
  | tool :: _ :: f :: _ =>
      if String.eqb tool "ffprobe" then probe_answer w (last cmd EmptyString)
      else if is_transcode cmd then transcode_answer w f
      else concat_answer w
  | _ => RunRaised FileNotFoundError
  end.

(** POSIX flavoured paths, with [/work] as the current directory. *)
Definition sim_join (a b : string) : string := (a ++ "/" ++ b)%string.

Definition sim_abspath (p : string) : string :=
  match p with
  | String "." (String "/" rest) => ("/work/" ++ rest)%string
  | String "/" _ => p
  | _ => ("/work/" ++ p)%string
  end.

Definition sim_basename (p : string) : string :=
  last (split "/" p) EmptyString.

#[global] Instance host : Host world := {|
  path_join := sim_join;
  abspath := sim_abspath;
  basename := sim_basename;
  host_input := fun _ w => (Ok (typed w), w);
  host_exists := fun _ _ => false;
  host_rmtree := fun _ w => (Ok tt, w);
  host_makedirs := fun _ w => (Ok tt, w);
  host_remove := fun _ w => (Ok tt, w);
  host_glob := fun pattern w => listing w pattern;
  host_run := fun cmd w => (run cmd w, w);
  host_write := fun _ _ w => (Ok tt, w)
|}.

Definition start (w : world) : state world := mkState w [].

(** One directory listing: [files] for the pattern [pattern]. *)
Definition only (pattern : string) (files : list string) (p : string)
  : list string :=
  if String.eqb p pattern then files else [].

(** Two good clips; the concatenation exits with 1. *)
Definition concat_fails : world :=
  mkWorld "" (only "./*.mp4" ["./a.mp4"; "./b.mp4"])
    (fun f => if String.eqb f "./a.mp4"
              then Exited 0 ("1280x720" ++ nl)
              else Exited 0 ("1080x1920" ++ nl))
    (fun _ => Exited 0 "")
    (Exited 1 "").

(** The same clips; the concatenation exits with 0. *)
Definition all_good : world :=
  mkWorld "2" (only "./*.mp4" ["./a.mp4"; "./b.mp4"])
    (fun f => if String.eqb f "./a.mp4"
              then Exited 0 ("1280x720" ++ nl)
              else Exited 0 ("1080x1920" ++ nl))
    (fun _ => Exited 0 "")
    (Exited 0 "").

(** A transport stream for which ffprobe prints the size twice. *)
Definition probe_prints_twice : world :=
  mkWorld "" (only "./*.ts" ["./clip.ts"])
    (fun _ => Exited 0 ("1920x1080" ++ nl ++ "1920x1080" ++ nl))
    (fun _ => Exited 0 "")
    (Exited 0 "").

(** A clip whose probe output is not numeric. *)
Definition probe_not_numeric : world :=
  mkWorld "" (only "./*.mp4" ["./clip.mp4"])
    (fun _ => Exited 0 ("axb" ++ nl))
    (fun _ => Exited 0 "")
    (Exited 0 "").

(** A clip with no video stream (ffprobe prints nothing) and a clip that
    ffmpeg cannot transcode. *)
Definition nothing_usable : world :=
  mkWorld "9" (only "./*.mov" ["./audio.mov"; "./broken.mov"])
    (fun f => if String.eqb f "./audio.mov"
              then Exited 0 ""
              else Exited 0 ("640x480" ++ nl))
    (fun _ => Exited 1 "")
    (Exited 0 "").

(** A clip probed as zero wide and 720 high. *)
Definition zero_width : world :=
  mkWorld "" (only "./*.avi" ["./odd.avi"])
    (fun _ => Exited 0 ("0x720" ++ nl))
    (fun _ => Exited 0 "")
    (Exited 0 "").

(** ffprobe is not installed. *)
Definition no_ffprobe : world :=
  mkWorld "" (only "./*.mp4" ["./a.mp4"])
    (fun _ => RunRaised FileNotFoundError)
    (fun _ => Exited 0 "")
    (Exited 0 "").

End Sim.

(* ================================================================== *)
(** * Further readings of a trace, and further simulated hosts *)
(* ================================================================== *)

(** [ffprobe ...] command lines. *)
Definition is_probe (cmd : list string) : bool :=
  match cmd with
  | a :: _ => String.eqb a "ffprobe"
  | [] => false
  end.

(** The files handed to ffprobe (the last word of the command line), in
    trace order. *)
Definition probed (evs : list event) : list string :=
  flat_map (fun e =>
    match e with
    | EvRun cmd _ => if is_probe cmd then [last cmd EmptyString] else []
    | _ => []
    end) evs.

(** Every command line launched, in trace order. *)
Definition launched (evs : list event) : list (list string) :=
  flat_map (fun e =>
    match e with
    | EvRun cmd _ => [cmd]
    | _ => []
    end) evs.

(** The value of a decimal numeral read from the left, continuing from the
    value [acc] of the digits already read. *)
Fixpoint uint_value (acc : Z) (d : uint) : Z :=
  match d with
  | Nil => acc
  | D0 d' => uint_value (10 * acc + 0) d'
  | D1 d' => uint_value (10 * acc + 1) d'
  | D2 d' => uint_value (10 * acc + 2) d'
  | D3 d' => uint_value (10 * acc + 3) d'
  | D4 d' => uint_value (10 * acc + 4) d'
  | D5 d' => uint_value (10 * acc + 5) d'
  | D6 d' => uint_value (10 * acc + 6) d'
  | D7 d' => uint_value (10 * acc + 7) d'
  | D8 d' => uint_value (10 * acc + 8) d'
  | D9 d' => uint_value (10 * acc + 9) d'
  end.

(** The notices of the script that carry no file name. *)
Definition transcode_done_notice : string := "      ✅ 转码完成。".
Definition merge_failed_notice : string := "❌ 合并阶段失败。".
Definition merge_done_notice : string := (nl ++ "🎉 **大功告成！**")%string.
Definition closing_hint : string :=
  (nl ++ "💡 提示: 临时文件保存在 '" ++ TEMP_DIR ++ "' 目录。")%string.
Definition mode_prompt : string :=
  (nl ++ "请输入选项 (1 或 2，回车默认 1): ")%string.

(** The five banner lines [main] prints before it asks for the mode. *)
Definition banner : list event :=
  [EvPrint "🎬 视频自动统一与合并工具 (GPU/CPU 选择版)";
   EvPrint "------------------------------------------------";
   EvPrint "请选择编码模式：";
   EvPrint " [1] CPU (libx264)    - 默认，兼容性最好，速度较慢";
   EvPrint " [2] GPU (h264_nvenc) - 需要 NVIDIA 显卡，速度极快"].

(** What [main] still does after the concatenating ffmpeg has been
    launched with outcome [o]: the notices of [merge_videos], then the
    closing hint unless an exception is on its way out. *)
Definition after_concat {W} `{Host W} (o : run_outcome) : list event :=
  match o with
  | Exited 0%Z _ =>
      [EvPrint merge_done_notice;
       EvPrint ("📂 输出文件: " ++ abspath OUTPUT_FILE)%string;
       EvPrint closing_hint]
  | Exited _ _ | RunRaised CalledProcessError =>
      [EvPrint merge_failed_notice; EvPrint closing_hint]
  | RunRaised _ => []
  end.

(** The result of [main] after that launch. *)
Definition concat_result (o : run_outcome) : result unit :=
  match o with
  | RunRaised CalledProcessError | Exited _ _ => Ok tt
  | RunRaised e => Raise e
  end.

(** The opening notice of [merge_videos]. *)
Definition merge_opening (output_file : string) : event :=
  EvPrint (nl ++ "🚀 开始合并所有片段到 " ++ output_file ++ " ...")%string.

Module Faults.

(** ffprobe is interrupted from the keyboard. *)
Definition probe_interrupted : Sim.world :=
  Sim.mkWorld "" (Sim.only "./*.mp4" ["./a.mp4"])
    (fun _ => RunRaised KeyboardInterrupt)
    (fun _ => Exited 0 "")
    (Exited 0 "").

(** ffprobe works, ffmpeg cannot be launched. *)
Definition no_ffmpeg : Sim.world :=
  Sim.mkWorld "" (Sim.only "./*.mp4" ["./a.mp4"])
    (fun _ => Exited 0 ("1280x720" ++ nl))
    (fun _ => RunRaised FileNotFoundError)
    (RunRaised FileNotFoundError).

(** Clips are normalized, then ffmpeg cannot be launched for the merge. *)
Definition merge_not_launched : Sim.world :=
  Sim.mkWorld "" (Sim.only "./*.mp4" ["./a.mp4"])
    (fun _ => Exited 0 ("1280x720" ++ nl))
    (fun _ => Exited 0 "")
    (RunRaised FileNotFoundError).

(** The merged file of an earlier run lies among the clips. *)
Definition output_among_clips : Sim.world :=
  Sim.mkWorld ""
    (Sim.only "./*.mp4" ["./a.mp4"; "./final_merged_video.mp4"; "./b.mp4"])
    (fun _ => Exited 0 ("1280x720" ++ nl))
    (fun _ => Exited 0 "")
    (Exited 0 "").

(** The second of three clips cannot be transcoded. *)
Definition middle_clip_fails : Sim.world :=
  Sim.mkWorld "" (Sim.only "./*.mkv" ["./a.mkv"; "./b.mkv"; "./c.mkv"])
    (fun _ => Exited 0 ("1280x720" ++ nl))
    (fun f => if String.eqb f "./b.mkv" then Exited 1 "" else Exited 0 "")
    (Exited 0 "").

End Faults.

(** A host with a disk: paths that exist, and file operations that can
    fail.  The tools answer as in [Sim]. *)
Module Rig.

Record world : Type := mkWorld {
  tools : Sim.world;
  present : string -> bool;
  typed_answer : result string;
  rmtree_answer : result unit;
  makedirs_answer : result unit;
  remove_answer : result unit;
  write_answer : result unit
}.

#[global] Instance host : Host world := {|
  path_join := Sim.sim_join;
  abspath := Sim.sim_abspath;
  basename := Sim.sim_basename;
  host_input := fun _ w => (typed_answer w, w);
  host_exists := fun p w => present w p;
  host_rmtree := fun _ w => (rmtree_answer w, w);
  host_makedirs := fun _ w => (makedirs_answer w, w);
  host_remove := fun _ w => (remove_answer w, w);
  host_glob := fun pattern w => Sim.listing (tools w) pattern;
  host_run := fun cmd w => (Sim.run cmd (tools w), w);
  host_write := fun _ _ w => (write_answer w, w)
|}.

Definition start (w : world) : state world := mkState w [].

Definition leftovers (p : string) : bool :=
  String.eqb p TEMP_DIR || String.eqb p OUTPUT_FILE.

(** A second run in the same directory: scratch directory and merged file
    of the first run are there; the user types 2 between blanks. *)
Definition rerun : world :=
  mkWorld Sim.all_good leftovers (Ok " 2 ") (Ok tt) (Ok tt) (Ok tt) (Ok tt).

(** The input stream is closed. *)
Definition no_terminal : world :=
  mkWorld Sim.all_good leftovers (Raise EOFError) (Ok tt) (Ok tt) (Ok tt) (Ok tt).

(** The old scratch directory cannot be removed. *)
Definition scratch_locked : world :=
  mkWorld Sim.all_good leftovers (Ok "") (Raise OSError) (Ok tt) (Ok tt) (Ok tt).

(** The old merged file cannot be removed. *)
Definition output_locked : world :=
  mkWorld Sim.all_good leftovers (Ok "") (Ok tt) (Ok tt) (Raise OSError) (Ok tt).

(** The list file cannot be written. *)
Definition disk_full : world :=
  mkWorld Sim.all_good leftovers (Ok "") (Ok tt) (Ok tt) (Ok tt) (Raise OSError).

End Rig.

(* ================================================================== *)
(** * Facts about the string primitives *)
(* ================================================================== *)

Lemma replace_char_removes (a b : ascii) (s : string) :
  a <> b -> contains_char a (replace_char a b s) = false.
Proof.
  intros Hab; induction s as [|c s IH]; simpl; [reflexivity|].
  destruct (Ascii.eqb c a) eqn:Hca.
  - destruct (Ascii.eqb b a) eqn:Hba; [|exact IH].
    apply Ascii.eqb_eq in Hba; congruence.
  - rewrite Hca; exact IH.
Qed.

Lemma append_assoc (a b c : string) :
  ((a ++ b) ++ c)%string = (a ++ (b ++ c))%string.
Proof. induction a as [|x a IH]; simpl; [reflexivity | now rewrite IH]. Qed.

(** A joined list of manifest lines ends with the closing quote of its last
    line: nothing follows it, in particular no line feed. *)
Lemma join_lines_end (sep : string) (paths : list string) :
  paths <> [] ->
  exists body, join sep (map manifest_line paths) = (body ++ "'")%string.
Proof.
  induction paths as [|p ps IH]; intros Hne; [congruence|].
  destruct ps as [|q ps].
  - exists ("file '" ++ p)%string. unfold join, manifest_line; simpl.
    reflexivity.
  - destruct IH as [body Hb]; [discriminate|].
    exists (manifest_line p ++ sep ++ body)%string.
    unfold join in *. change (map manifest_line (p :: q :: ps))
      with (manifest_line p :: map manifest_line (q :: ps)).
    change (map manifest_line (q :: ps))
      with (manifest_line q :: map manifest_line ps) in *.
    cbn [String.concat] in *. rewrite Hb.
    now rewrite !append_assoc.
Qed.

Lemma last_transcode_cmd (input_file : string) (filters args : list string)
    (output_path : string) :
  last (transcode_cmd input_file filters args output_path) EmptyString
  = output_path.
Proof.
  unfold transcode_cmd. rewrite !app_assoc. apply last_last.
Qed.

Lemma is_transcode_cmd (input_file : string) (filters args : list string)
    (output_path : string) :
  is_transcode (transcode_cmd input_file filters args output_path) = true.
Proof. reflexivity. Qed.

Lemma is_concat_transcode_cmd (input_file : string) (filters args : list string)
    (output_path : string) :
  is_concat (transcode_cmd input_file filters args output_path) = false.
Proof. reflexivity. Qed.

Lemma is_concat_probe_cmd (f : string) : is_concat (probe_cmd f) = false.
Proof. reflexivity. Qed.

Lemma is_transcode_probe_cmd (f : string) : is_transcode (probe_cmd f) = false.
Proof. reflexivity. Qed.

Lemma is_transcode_concat_cmd (l o : string) :
  is_transcode (concat_cmd l o) = false.
Proof. reflexivity. Qed.

Lemma is_concat_concat_cmd (l o : string) : is_concat (concat_cmd l o) = true.
Proof. reflexivity. Qed.

(** The observers distribute over concatenation of traces. *)
Lemma ok_outputs_app (a b : list event) :
  ok_outputs (a ++ b) = ok_outputs a ++ ok_outputs b.
Proof. apply flat_map_app. Qed.

Lemma concat_runs_app (a b : list event) :
  concat_runs (a ++ b) = concat_runs a ++ concat_runs b.
Proof. apply flat_map_app. Qed.

Lemma writes_app (a b : list event) :
  writes (a ++ b) = writes a ++ writes b.
Proof. apply flat_map_app. Qed.

Lemma printed_app (a b : list event) :
  printed (a ++ b) = printed a ++ printed b.
Proof. apply flat_map_app. Qed.

Lemma transcode_runs_app (a b : list event) :
  transcode_runs (a ++ b) = transcode_runs a ++ transcode_runs b.
Proof. apply flat_map_app. Qed.

(* ================================================================== *)
(** * The filter chain and the encoder arguments *)
(* ================================================================== *)

Lemma scale_filter_text :
  scale_filter =
  "scale=1920:1080:force_original_aspect_ratio=decrease,pad=1920:1080:(ow-iw)/2:(oh-ih)/2,setsar=1".
Proof. reflexivity. Qed.

Lemma filters_for_portrait (width height : Z) :
  (height > width)%Z -> filters_for width height = [rotate_filter; scale_filter].
Proof.
  intros Hp. unfold filters_for, build_filters.
  destruct (Z.gtb_spec height width); [reflexivity | lia].
Qed.

Lemma filters_for_landscape (width height : Z) :
  (height <= width)%Z -> filters_for width height = [scale_filter].
Proof.
  intros Hl. unfold filters_for, build_filters.
  destruct (Z.gtb_spec height width); [lia | reflexivity].
Qed.

(** For every probed size with height > width the chain built for the
    clip starts with the counter-clockwise rotation [transpose=2]; for every
    size with height <= width no entry of the chain is the rotation filter,
    and the text handed to ffmpeg's [-vf] does not mention [transpose]. *)
Theorem rotation_iff_portrait (width height : Z) :
  ((height > width)%Z ->
     hd_error (filters_for width height) = Some "transpose=2")
  /\ ((height <= width)%Z ->
        ~ In "transpose=2" (filters_for width height)
        /\ is_infix "transpose" (join "," (filters_for width height)) = false).
Proof.
  split; intros Hcmp.
  - now rewrite filters_for_portrait.
  - rewrite filters_for_landscape by assumption. split; [|reflexivity].
    intros [Heq | []]. discriminate Heq.
Qed.

Lemma rotation_iff_portrait_witness :
  ((1920 > 1080)%Z /\ hd_error (filters_for 1080 1920) = Some "transpose=2")
  /\ ((720 <= 1280)%Z /\ ~ In "transpose=2" (filters_for 1280 720)).
Proof.
  split; (split; [lia|]).
  - apply (proj1 (rotation_iff_portrait 1080 1920)); lia.
  - apply (proj2 (rotation_iff_portrait 1280 720)); lia.
Defined.

(** Whatever the probed size, the chain ends with the compound
    scale+pad entry and holds it exactly once.  For the configured canvas
    (1920 x 1080) the entry consists of three comma-separated steps: a scale
    to the canvas with [force_original_aspect_ratio=decrease], a pad to the
    canvas with offsets [(ow-iw)/2] and [(oh-ih)/2], and [setsar=1]. *)
Theorem chain_ends_with_scale_pad (width height : Z) :
  (exists front, filters_for width height = front ++ [scale_filter]
                 /\ ~ In scale_filter front)
  /\ count_occ string_dec (filters_for width height) scale_filter = 1
  /\ last (filters_for width height) EmptyString = scale_filter
  /\ split "," scale_filter =
       [("scale=" ++ str_of_int TARGET_WIDTH ++ ":" ++ str_of_int TARGET_HEIGHT
           ++ ":force_original_aspect_ratio=decrease")%string;
        ("pad=" ++ str_of_int TARGET_WIDTH ++ ":" ++ str_of_int TARGET_HEIGHT
           ++ ":(ow-iw)/2:(oh-ih)/2")%string;
        "setsar=1"]
  /\ scale_filter =
       "scale=1920:1080:force_original_aspect_ratio=decrease,pad=1920:1080:(ow-iw)/2:(oh-ih)/2,setsar=1".
Proof.
  assert (Hneq : rotate_filter <> scale_filter) by discriminate.
  unfold filters_for, build_filters.
  destruct (height >? width)%Z; cbn [List.app].
  - repeat split.
    + exists [rotate_filter]. split; [reflexivity|].
      intros [Heq | []]. now apply Hneq.
  - repeat split.
    + exists []. split; [reflexivity | intros []].
Qed.

Section EncoderArgs.

Context {W : Type} `{Host W}.

Lemma get_encoding_args_software (mode : string) (st : state W) :
  mode <> "2" ->
  get_encoding_args mode st =
    (Ok (cpu_video_args ++ common_args),
     emit (EvPrint "🐢 已启用 CPU 编码 (libx264)") st).
Proof.
  intros Hmode. unfold get_encoding_args.
  destruct (String.eqb_spec mode "2") as [Heq | _]; [contradiction|].
  reflexivity.
Qed.

Lemma get_encoding_args_hardware (st : state W) :
  get_encoding_args "2" st =
    (Ok (gpu_video_args ++ common_args),
     emit (EvPrint "⚡ 已启用 NVIDIA GPU 加速 (h264_nvenc)") st).
Proof. reflexivity. Qed.

(** C4. Every mode string other than ["2"] selects the software profile
    (libx264, preset fast, crf 23, then the shared arguments); the mode
    ["2"] selects the hardware profile, whose video codec is [h264_nvenc]
    and whose rate control [-rc] is [vbr].  The selector never raises. *)
Theorem mode_selects_profile (mode : string) (st : state W) :
  (mode <> "2" ->
     fst (get_encoding_args mode st) =
       Ok ["-c:v"; "libx264"; "-preset"; "fast"; "-crf"; "23";
           "-r"; "30"; "-video_track_timescale"; "15360"; "-c:a"; "aac";
           "-ar"; "44100"; "-ac"; "2"; "-b:a"; "192k"; "-y"])
  /\ (mode = "2" ->
        exists args,
          fst (get_encoding_args mode st) = Ok args
          /\ args =
               ["-c:v"; "h264_nvenc"; "-preset"; "p4"; "-cq"; "26";
                "-rc"; "vbr";
                "-r"; "30"; "-video_track_timescale"; "15360"; "-c:a"; "aac";
                "-ar"; "44100"; "-ac"; "2"; "-b:a"; "192k"; "-y"]
          /\ arg_value "-c:v" args = Some "h264_nvenc"
          /\ arg_value "-rc" args = Some "vbr").
Proof.
  split.
  - intros Hmode. now rewrite get_encoding_args_software.
  - intros ->. rewrite get_encoding_args_hardware.
    eexists; repeat split.
Qed.

(** C9. In both modes the selected arguments end with the same shared
    block: frame rate 30, track timescale 15360, audio codec aac, sample
    rate 44100, 2 channels, audio bitrate 192k (and the overwrite flag);
    each of these options takes that value in the full argument list. *)
Theorem shared_arguments_in_both_modes (mode : string) (st : state W) :
  exists video_args args,
    fst (get_encoding_args mode st) = Ok args
    /\ args = video_args
                ++ ["-r"; "30"; "-video_track_timescale"; "15360";
                    "-c:a"; "aac"; "-ar"; "44100"; "-ac"; "2";
                    "-b:a"; "192k"; "-y"]
    /\ arg_value "-r" args = Some "30"
    /\ arg_value "-video_track_timescale" args = Some "15360"
    /\ arg_value "-c:a" args = Some "aac"
    /\ arg_value "-ar" args = Some "44100"
    /\ arg_value "-ac" args = Some "2"
    /\ arg_value "-b:a" args = Some "192k".
Proof.
  unfold get_encoding_args.
  destruct (String.eqb mode "2"); cbn [bind print ret fst].
  - exists gpu_video_args; eexists; repeat split.
  - exists cpu_video_args; eexists; repeat split.
Qed.

End EncoderArgs.

Lemma mode_selects_profile_witness :
  ("" <> "2"
   /\ fst (get_encoding_args "" (Sim.start Sim.concat_fails))
      = Ok (cpu_video_args ++ common_args))
  /\ ("9" <> "2"
      /\ fst (get_encoding_args "9" (Sim.start Sim.nothing_usable))
         = Ok (cpu_video_args ++ common_args))
  /\ exists args,
       fst (get_encoding_args "2" (Sim.start Sim.all_good)) = Ok args
       /\ arg_value "-c:v" args = Some "h264_nvenc"
       /\ arg_value "-rc" args = Some "vbr".
Proof.
  assert (H1 : "" <> "2") by discriminate.
  assert (H2 : "9" <> "2") by discriminate.
  split; [split; [exact H1|] | split; [split; [exact H2|] |]].
  - exact (proj1 (mode_selects_profile "" (Sim.start Sim.concat_fails)) H1).
  - exact (proj1 (mode_selects_profile "9" (Sim.start Sim.nothing_usable)) H2).
  - destruct (proj2 (mode_selects_profile "2" (Sim.start Sim.all_good)) eq_refl)
      as (args & Hr & _ & Hc & Hv).
    exists args. auto.
Defined.

(* ================================================================== *)
(** * Probing and normalizing one clip *)
(* ================================================================== *)

Tactic Notation "step" :=
  unfold try_except, bind, ret, raise, print, perform;
  cbn [fst snd trace world emit check_returncode].
Tactic Notation "step" "in" hyp(H) :=
  unfold try_except, bind, ret, raise, print, perform in H;
  cbn [fst snd trace world emit check_returncode] in H.

Ltac trace_eq := step; rewrite <- ?List.app_assoc; cbn [List.app]; reflexivity.

Ltac observe :=
  cbn [ok_outputs concat_runs writes transcode_runs printed List.flat_map
       List.app fst snd];
  rewrite ?is_concat_probe_cmd, ?is_transcode_probe_cmd,
          ?is_transcode_cmd, ?is_concat_transcode_cmd,
          ?is_concat_concat_cmd, ?is_transcode_concat_cmd,
          ?last_transcode_cmd;
  repeat match goal with
         | Hc : (?c =? 0)%Z = _ |- _ => rewrite Hc
         end;
  cbn [andb List.app].

(** Closes a goal [exists new, trace .. = trace st ++ new /\ ..] once the
    run [Hrun] has been computed down to a pair. *)
Ltac conclude Hrun :=
  injection Hrun as <- <-; eexists; split; [trace_eq | observe; repeat split].

Section Runs.

Context {W : Type} `{Host W}.

(** [get_video_dimensions], case by case on what the launcher answers. *)
Lemma get_video_dimensions_eq (f : string) (st : state W) :
  get_video_dimensions f st =
    let (o, w') := host_run (probe_cmd f) (world st) in
    let st1 := mkState w' (trace st ++ [EvRun (probe_cmd f) o]) in
    let notice := EvPrint ("⚠️ 无法读取文件信息: " ++ basename f)%string in
    match o with
    | RunRaised e =>
        if is_Exception e then (Ok (DimsTuple 0 0), emit notice st1)
        else (Raise e, st1)
    | Exited code out =>
        if (code =? 0)%Z
        then if contains_char "x" (strip out)
             then (Ok (DimsMap (split "x" (strip out))), st1)
             else (Ok (DimsTuple 0 0), st1)
        else (Ok (DimsTuple 0 0), emit notice st1)
    end.
Proof.
  unfold get_video_dimensions, try_except, bind, subprocess_run.
  destruct (host_run (probe_cmd f) (world st)) as [o w'].
  destruct o as [e | code out]; step.
  - destruct (is_Exception e); reflexivity.
  - destruct (code =? 0)%Z; [|reflexivity].
    destruct (contains_char "x" (strip out)); reflexivity.
Qed.

(** Probing runs ffprobe once and nothing else besides printing. *)
Lemma get_video_dimensions_trace (f : string) (st : state W) :
  exists o notices,
    trace (snd (get_video_dimensions f st))
    = trace st ++ EvRun (probe_cmd f) o :: map EvPrint notices.
Proof.
  rewrite get_video_dimensions_eq.
  destruct (host_run (probe_cmd f) (world st)) as [o w'].
  exists o.
  destruct o as [e | code out]; cbn zeta.
  - destruct (is_Exception e);
      [eexists [_] | exists []]; trace_eq.
  - destruct (code =? 0)%Z; [destruct (contains_char "x" (strip out))|];
      [exists [] | exists [] | eexists [_]]; trace_eq.
Qed.

(** The gate of [process_video_file]: a probed width of 0 ends the call
    in the state the probe left. *)
Lemma width_zero_gate (input_file output_path : string)
    (encoding_args : list string) (st st1 : state W)
    (dims : dims_value) (height : Z) :
  get_video_dimensions input_file st = (Ok dims, st1) ->
  unpack2 dims = Ok (0%Z, height) ->
  process_video_file input_file output_path encoding_args st = (Ok false, st1).
Proof.
  intros Hprobe Hdims. unfold process_video_file, bind.
  rewrite Hprobe, Hdims. reflexivity.
Qed.

(** One call of [process_video_file]: it never concatenates or writes, and
    a transcode exits with 0 in it exactly when it returns [True]; that
    transcode wrote [output_path]. *)
Lemma process_video_file_trace (input_file output_path : string)
    (encoding_args : list string) (st : state W) :
  exists new,
    trace (snd (process_video_file input_file output_path encoding_args st))
    = trace st ++ new
    /\ concat_runs new = []
    /\ writes new = []
    /\ ok_outputs new =
         match fst (process_video_file input_file output_path encoding_args st)
         with
         | Ok true => [output_path]
         | _ => []
         end.
Proof.
  destruct (process_video_file input_file output_path encoding_args st)
    as [r st'] eqn:Hrun.
  unfold process_video_file, bind at 1 in Hrun.
  rewrite get_video_dimensions_eq in Hrun.
  destruct (host_run (probe_cmd input_file) (world st)) as [o w'].
  destruct o as [e | code s]; step in Hrun.
  - destruct (is_Exception e); step in Hrun;
      cbn [unpack2 Z.eqb] in Hrun; step in Hrun; conclude Hrun.
  - destruct (code =? 0)%Z eqn:Hcode.
    2:{ cbn [unpack2 Z.eqb] in Hrun; step in Hrun. conclude Hrun. }
    destruct (contains_char "x" (strip s)).
    2:{ cbn [unpack2 Z.eqb] in Hrun; step in Hrun. conclude Hrun. }
    destruct (unpack2 _) as [[w h] | e]; [|step in Hrun; conclude Hrun].
    destruct (w =? 0)%Z; [step in Hrun; conclude Hrun|].
    step in Hrun.
    destruct (h >? w)%Z; unfold subprocess_run in Hrun; step in Hrun;
      match type of Hrun with
      | context [host_run ?c ?w] => destruct (host_run c w) as [o2 w2]
      end;
      (destruct o2 as [e2 | c2 s2]; step in Hrun;
       [destruct e2 | destruct (c2 =? 0)%Z eqn:Hc2]);
      cbn [is_CalledProcessError] in Hrun; conclude Hrun.
Qed.

(** Past the gate, [process_video_file] invokes ffmpeg exactly once, and
    the [-vf] argument of that invocation is the comma-joined chain
    [filters_for width height] of the probed size. *)
Lemma process_video_file_chain (input_file output_path : string)
    (encoding_args : list string) (st st1 : state W) (dims : dims_value)
    (width height : Z) :
  get_video_dimensions input_file st = (Ok dims, st1) ->
  unpack2 dims = Ok (width, height) ->
  width <> 0%Z ->
  exists new,
    trace (snd (process_video_file input_file output_path encoding_args st))
    = trace st1 ++ new
    /\ transcode_runs new =
         [["ffmpeg"; "-i"; input_file; "-vf";
           join "," (filters_for width height)]
            ++ encoding_args ++ [output_path]].
Proof.
  intros Hprobe Hdims Hwidth.
  destruct (process_video_file input_file output_path encoding_args st)
    as [r st'] eqn:Hrun.
  unfold process_video_file, bind at 1 in Hrun.
  rewrite Hprobe, Hdims in Hrun.
  destruct (Z.eqb_spec width 0) as [Heq | _]; [contradiction|].
  unfold filters_for. unfold subprocess_run in Hrun. step in Hrun.
  destruct (height >? width)%Z; step in Hrun;
    match type of Hrun with
    | context [host_run ?c ?w] => destruct (host_run c w) as [o2 w2]
    end;
    (destruct o2 as [e2 | c2 s2]; step in Hrun;
     [destruct e2 | destruct (c2 =? 0)%Z eqn:Hc2]);
    cbn [is_CalledProcessError] in Hrun;
    injection Hrun as <- <-; eexists;
    (split; [trace_eq | observe; reflexivity]).
Qed.

End Runs.

(* ================================================================== *)
(** * The scanning loop *)
(* ================================================================== *)

Section Scan.

Context {W : Type} `{Host W}.

Lemma scanned_refl (valid_files : list string) :
  scanned valid_files [] (Ok valid_files).
Proof.
  repeat split; cbn; now rewrite ?List.app_nil_r.
Qed.

Lemma scanned_trans (vf vf1 : list string) (n1 n2 : list event)
    (r : result (list string)) :
  scanned vf n1 (Ok vf1) -> scanned vf1 n2 r -> scanned vf (n1 ++ n2) r.
Proof.
  intros (Hc1 & Hw1 & Hv1 & Ho1) (Hc2 & Hw2 & Hr).
  split; [|split].
  - now rewrite concat_runs_app, Hc1, Hc2.
  - now rewrite writes_app, Hw1, Hw2.
  - destruct r as [vf2 | e]; [|exact I].
    destruct Hr as (Hv2 & Ho2).
    rewrite ok_outputs_app. split.
    + rewrite Hv2, Hv1, List.map_app. now rewrite List.app_assoc.
    + rewrite List.length_app, List.seq_app, List.map_app.
      rewrite <- Ho1. f_equal.
      rewrite Ho2 at 1. f_equal. f_equal.
      rewrite Hv1, List.length_app, List.length_map. reflexivity.
Qed.

Lemma scanned_raise (vf vf1 : list string) (n1 n2 : list event) (e : exn) :
  scanned vf n1 (Ok vf1) -> concat_runs n2 = [] -> writes n2 = [] ->
  scanned vf (n1 ++ n2) (Raise e).
Proof.
  intros H1 Hc Hw. apply (scanned_trans vf vf1); [exact H1|].
  now repeat split.
Qed.

(** One candidate keeps the invariant. *)
Lemma process_candidate_scanned (encoding_args : list string)
    (input_file : string) (valid_files : list string) (st : state W) :
  exists new,
    trace (snd (process_candidate encoding_args input_file valid_files st))
    = trace st ++ new
    /\ scanned valid_files new
         (fst (process_candidate encoding_args input_file valid_files st)).
Proof.
  unfold process_candidate, bind.
  destruct (process_video_file_trace input_file
              (path_join TEMP_DIR (temp_name (List.length valid_files)))
              encoding_args st) as (new & Ht & Hc & Hw & Ho).
  destruct (process_video_file _ _ _ st) as [r st1].
  cbn [fst snd] in *. exists new.
  destruct r as [[|] | e]; cbn [ret fst snd]; (split; [exact Ht|]);
    unfold scanned; rewrite Hc, Hw, ?Ho; repeat split.
  cbn [List.map List.app]. now rewrite List.app_nil_r.
Qed.

(** A loop whose body keeps the invariant keeps it. *)
Lemma for_each_scanned {A : Type}
    (body : A -> list string -> M W (list string)) :
  (forall x vf st, exists new,
      trace (snd (body x vf st)) = trace st ++ new
      /\ scanned vf new (fst (body x vf st))) ->
  forall xs vf st, exists new,
    trace (snd (for_each xs body vf st)) = trace st ++ new
    /\ scanned vf new (fst (for_each xs body vf st)).
Proof.
  intros Hbody xs. induction xs as [|x xs IH]; intros vf st.
  - exists []. cbn. rewrite List.app_nil_r. split; [reflexivity|].
    apply scanned_refl.
  - cbn [for_each]. unfold bind.
    destruct (Hbody x vf st) as (n1 & Ht1 & Hs1).
    destruct (body x vf st) as [r st1]. cbn [fst snd] in *.
    destruct r as [vf1 | e].
    + destruct (IH vf1 st1) as (n2 & Ht2 & Hs2).
      exists (n1 ++ n2). split.
      * now rewrite Ht2, Ht1, List.app_assoc.
      * now apply (scanned_trans vf vf1).
    + exists n1. now split.
Qed.

Lemma process_extension_scanned (encoding_args : list string)
    (ext : string) (valid_files : list string) (st : state W) :
  exists new,
    trace (snd (process_extension encoding_args ext valid_files st))
    = trace st ++ new
    /\ scanned valid_files new
         (fst (process_extension encoding_args ext valid_files st)).
Proof.
  unfold process_extension, bind, glob.
  apply for_each_scanned. intros x vf st0.
  apply process_candidate_scanned.
Qed.

Lemma main_scan_scanned (encoding_args : list string) (st : state W) :
  exists new,
    trace (snd (main_scan encoding_args st)) = trace st ++ new
    /\ scanned [] new (fst (main_scan encoding_args st)).
Proof.
  unfold main_scan. apply for_each_scanned. intros x vf st0.
  apply process_extension_scanned.
Qed.

(** The set-up phase runs no tool and writes no file. *)
Lemma main_setup_trace (st : state W) :
  exists new,
    trace (snd (main_setup st)) = trace st ++ new
    /\ concat_runs new = [] /\ writes new = [] /\ ok_outputs new = [].
Proof.
  destruct (main_setup st) as [r st'] eqn:Hrun.
  unfold main_setup, input, get_encoding_args, path_exists, rmtree, makedirs
    in Hrun.
  step in Hrun.
  destruct (host_input _ _) as [[line | e] w1]; step in Hrun;
    [|conclude Hrun].
  destruct (String.eqb (strip line) "2"); step in Hrun;
    (destruct (host_exists TEMP_DIR w1); step in Hrun;
     [destruct (host_rmtree TEMP_DIR w1) as [[[] | e] w2]; step in Hrun;
      [|conclude Hrun];
      destruct (host_makedirs TEMP_DIR w2) as [[[] | e] w3]
     |destruct (host_makedirs TEMP_DIR w1) as [[[] | e] w3]];
     step in Hrun; conclude Hrun).
Qed.

End Scan.

(* ================================================================== *)
(** * Writing the list and merging *)
(* ================================================================== *)

(** Like [conclude], for a statement whose last part is left to prove. *)
Ltac merged Hrun :=
  injection Hrun as <- <-; eexists;
  split; [trace_eq | observe; split; [reflexivity | split; [reflexivity|]]].

Section Merge.

Context {W : Type} `{Host W}.

Lemma main_finish_empty (st : state W) :
  main_finish [] st = (Ok tt, emit (EvPrint (nl ++ "⚠️ 未找到视频文件。")) st).
Proof. reflexivity. Qed.

(** [merge_videos] writes nothing and transcodes nothing.  When its ffmpeg
    invocation exits with a code other than 0, the call still returns
    normally, and the invocation is followed by the failure notice only. *)
Lemma merge_videos_trace (list_file output_file : string) (st : state W) :
  exists new,
    trace (snd (merge_videos list_file output_file st)) = trace st ++ new
    /\ writes new = []
    /\ ok_outputs new = []
    /\ forall c out,
         In (Exited c out) (concat_runs new) -> c <> 0%Z ->
         fst (merge_videos list_file output_file st) = Ok tt
         /\ exists pre,
              new = pre ++ [EvRun (concat_cmd list_file output_file)
                              (Exited c out);
                            EvPrint "❌ 合并阶段失败。"]
              /\ concat_runs pre = [].
Proof.
  destruct (merge_videos list_file output_file st) as [r st'] eqn:Hrun.
  unfold merge_videos, path_exists, remove, subprocess_run in Hrun.
  step in Hrun.
  assert (Hzero : forall c2 : Z, (c2 =? 0)%Z = true -> c2 <> 0%Z -> False)
    by (intros c2 Hc2 Hne; apply Z.eqb_eq in Hc2; contradiction).
  destruct (host_exists output_file (world st)); step in Hrun.
  - destruct (host_remove output_file (world st)) as [[[] | e] w1];
      step in Hrun.
    2:{ merged Hrun. intros c out []. }
    destruct (host_run _ w1) as [[e | c2 s2] w2]; step in Hrun.
    + destruct (is_CalledProcessError e); merged Hrun;
        intros c out [Heq | []]; discriminate Heq.
    + destruct (c2 =? 0)%Z eqn:Hc2; cbn [is_CalledProcessError] in Hrun;
        merged Hrun; intros c out [Heq | []] Hne;
        injection Heq as -> ->; [destruct (Hzero c Hc2 Hne)|].
      split; [reflexivity|]. eexists [_; _]. split; reflexivity.
  - destruct (host_run _ (world st)) as [[e | c2 s2] w2]; step in Hrun.
    + destruct (is_CalledProcessError e); merged Hrun;
        intros c out [Heq | []]; discriminate Heq.
    + destruct (c2 =? 0)%Z eqn:Hc2; cbn [is_CalledProcessError] in Hrun;
        merged Hrun; intros c out [Heq | []] Hne;
        injection Heq as -> ->; [destruct (Hzero c Hc2 Hne)|].
      split; [reflexivity|]. eexists [_]. split; reflexivity.
Qed.

Lemma main_finish_trace (valid_files : list string) (st : state W) :
  valid_files <> [] ->
  exists rest,
    trace (snd (main_finish valid_files st))
    = trace st ++ EvWrite (path_join TEMP_DIR "file_list.txt")
                    (join nl valid_files) :: rest
    /\ writes rest = []
    /\ ok_outputs rest = []
    /\ forall c out,
         In (Exited c out) (concat_runs rest) -> c <> 0%Z ->
         fst (main_finish valid_files st) = Ok tt
         /\ exists mid,
              rest = mid ++ [EvRun (concat_cmd (path_join TEMP_DIR "file_list.txt")
                                      OUTPUT_FILE) (Exited c out);
                             EvPrint "❌ 合并阶段失败。";
                             EvPrint (nl ++ "💡 提示: 临时文件保存在 '"
                                         ++ TEMP_DIR ++ "' 目录。")%string]
              /\ concat_runs mid = [].
Proof.
  intros Hne. destruct valid_files as [|v vs]; [congruence|].
  unfold main_finish. cbv beta iota zeta.
  set (vf := v :: vs). set (lf := path_join TEMP_DIR "file_list.txt").
  unfold write_file, perform, bind.
  destruct (host_write lf (join nl vf) (world st)) as [[[] | e] w1];
    cbn [fst snd emit trace world].
  2:{ exists []. split; [reflexivity | split; [reflexivity|]].
      split; [reflexivity | intros c out []]. }
  match goal with
  | |- context [merge_videos lf OUTPUT_FILE ?s] =>
      destruct (merge_videos_trace lf OUTPUT_FILE s) as (new & Ht & Hw & Ho & Hfail);
      destruct (merge_videos lf OUTPUT_FILE s) as [r st2]
  end.
  cbn [fst snd emit trace world] in *.
  destruct r as [[] | e]; cbn [print fst snd emit trace world].
  - exists (new ++ [EvPrint (nl ++ "💡 提示: 临时文件保存在 '"
                        ++ TEMP_DIR ++ "' 目录。")%string]).
    split; [rewrite Ht, <- !List.app_assoc; reflexivity|].
    rewrite writes_app, ok_outputs_app, concat_runs_app, Hw, Ho.
    split; [reflexivity | split; [reflexivity|]].
    intros c out Hin Hc.
    cbn [concat_runs List.flat_map List.app] in Hin.
    rewrite List.app_nil_r in Hin.
    destruct (Hfail c out Hin Hc) as (_ & pre & -> & Hpre).
    split; [reflexivity|].
    exists pre. rewrite <- List.app_assoc. split; [reflexivity | exact Hpre].
  - exists new.
    split; [rewrite Ht, <- !List.app_assoc; reflexivity|].
    split; [exact Hw | split; [exact Ho|]].
    intros c out Hin Hc.
    destruct (Hfail c out Hin Hc) as (Habs & _); discriminate Habs.
Qed.

End Merge.

(* ================================================================== *)
(** * The whole run *)
(* ================================================================== *)

Section Main.

Context {W : Type} `{Host W}.

Lemma transcode_runs_prints (notices : list string) :
  transcode_runs (map EvPrint notices) = [].
Proof. induction notices as [|n ns IH]; [reflexivity | exact IH]. Qed.

Lemma ok_outputs_prints (notices : list string) :
  ok_outputs (map EvPrint notices) = [].
Proof. induction notices as [|n ns IH]; [reflexivity | exact IH]. Qed.

(** The shape of every run of [main]: either nothing is written and
    nothing concatenated, or the list file is written once, after all the
    transcodes, with one line per successful transcode. *)
Lemma main_shape (st : state W) :
  exists new,
    trace (snd (main st)) = trace st ++ new
    /\ ((concat_runs new = [] /\ writes new = [])
        \/ exists pre rest,
             new = pre ++ EvWrite (path_join TEMP_DIR "file_list.txt")
                           (join nl (map manifest_entry (ok_outputs pre)))
                         :: rest
             /\ concat_runs pre = []
             /\ writes pre = []
             /\ ok_outputs pre <> []
             /\ ok_outputs pre =
                  map temp_path (seq 0 (List.length (ok_outputs pre)))
             /\ writes rest = []
             /\ ok_outputs rest = []
             /\ forall c out,
                  In (Exited c out) (concat_runs rest) -> c <> 0%Z ->
                  fst (main st) = Ok tt
                  /\ exists mid,
                       rest = mid ++
                         [EvRun (concat_cmd (path_join TEMP_DIR "file_list.txt")
                                   OUTPUT_FILE) (Exited c out);
                          EvPrint "❌ 合并阶段失败。";
                          EvPrint (nl ++ "💡 提示: 临时文件保存在 '"
                                      ++ TEMP_DIR ++ "' 目录。")%string]
                       /\ concat_runs mid = []).
Proof.
  unfold main, bind.
  destruct (main_setup_trace st) as (n0 & Ht0 & Hc0 & Hw0 & Ho0).
  destruct (main_setup st) as [[args | e] st0]; cbn [fst snd] in *.
  2:{ exists n0. split; [exact Ht0 | left; now split]. }
  destruct (main_scan_scanned args st0) as (n1 & Ht1 & Hc1 & Hw1 & Hs).
  destruct (main_scan args st0) as [[vf | e] st1]; cbn [fst snd] in *.
  2:{ exists (n0 ++ n1). rewrite Ht1, Ht0, List.app_assoc.
      split; [reflexivity | left].
      now rewrite concat_runs_app, writes_app, Hc0, Hc1, Hw0, Hw1. }
  destruct Hs as (Hvf & Hout). cbn [List.app List.length] in Hvf, Hout.
  assert (Hpre : ok_outputs (n0 ++ n1) = ok_outputs n1)
    by now rewrite ok_outputs_app, Ho0.
  destruct vf as [|v vs].
  - rewrite main_finish_empty. cbn [fst snd emit trace].
    exists ((n0 ++ n1) ++ [EvPrint (nl ++ "⚠️ 未找到视频文件。")]).
    rewrite Ht1, Ht0, !List.app_assoc. split; [reflexivity | left].
    now rewrite !concat_runs_app, !writes_app, Hc0, Hc1, Hw0, Hw1.
  - destruct (main_finish_trace (v :: vs) st1) as (rest & Ht2 & Hw2 & Ho2 & Hfail);
      [discriminate|].
    exists ((n0 ++ n1) ++ EvWrite (path_join TEMP_DIR "file_list.txt")
                            (join nl (v :: vs)) :: rest).
    split.
    + rewrite Ht2, Ht1, Ht0, !List.app_assoc. reflexivity.
    + right. exists (n0 ++ n1), rest.
      rewrite Hpre, <- Hvf.
      split; [reflexivity|].
      split; [now rewrite concat_runs_app, Hc0, Hc1|].
      split; [now rewrite writes_app, Hw0, Hw1|].
      split; [intros Habs; rewrite Habs in Hvf; discriminate Hvf|].
      split; [exact Hout|].
      split; [exact Hw2|].
      split; [exact Ho2 | exact Hfail].
Qed.

(** The list of a completed scan is empty exactly when no transcode
    succeeded during the scan. *)
Lemma main_scan_empty_iff (encoding_args : list string) (st st' : state W)
    (valid_files : list string) (new : list event) :
  main_scan encoding_args st = (Ok valid_files, st') ->
  trace st' = trace st ++ new ->
  (valid_files = [] <-> ok_outputs new = []).
Proof.
  intros Hrun Htr.
  destruct (main_scan_scanned encoding_args st) as (n & Ht & _ & _ & Hs).
  rewrite Hrun in Ht, Hs. cbn [fst snd] in Ht, Hs.
  rewrite Htr in Ht. apply List.app_inv_head in Ht. subst n.
  destruct Hs as (-> & _). cbn [List.app].
  destruct (ok_outputs new); split; intros Heq;
    try reflexivity; discriminate Heq.
Qed.

(** The probe never lets an exception of class [Exception] out of its own
    body: what leaves it is [KeyboardInterrupt] at most. *)
Lemma get_video_dimensions_raises (f : string) (st : state W) (e : exn) :
  fst (get_video_dimensions f st) = Raise e -> is_Exception e = false.
Proof.
  rewrite get_video_dimensions_eq.
  destruct (host_run (probe_cmd f) (world st)) as [[e0 | code out] w'];
    cbv zeta.
  - destruct (is_Exception e0) eqn:He0; cbn [fst]; intros Heq;
      [discriminate Heq | now injection Heq as <-].
  - destruct (code =? 0)%Z; [destruct (contains_char "x" (strip out))|];
      cbn [fst]; intros Heq; discriminate Heq.
Qed.

(** The failures the probe does absorb: the launch raises an [Exception],
    the tool exits with a code other than 0, or its output holds no [x]. *)
Lemma get_video_dimensions_sentinel (f : string) (st : state W)
    (o : run_outcome) (w' : W) :
  host_run (probe_cmd f) (world st) = (o, w') ->
  match o with
  | RunRaised e => is_Exception e = true
  | Exited code out =>
      code <> 0%Z \/ contains_char "x" (strip out) = false
  end ->
  fst (get_video_dimensions f st) = Ok (DimsTuple 0 0).
Proof.
  intros Hrun Hfail. rewrite get_video_dimensions_eq, Hrun. cbv zeta.
  destruct o as [e | code out].
  - now rewrite Hfail.
  - destruct (Z.eqb_spec code 0) as [-> | Hne]; [|reflexivity].
    destruct Hfail as [Habs | ->]; [congruence | reflexivity].
Qed.

(** The output of the probe is handed on unparsed whenever it holds an
    [x]: the conversions run later, in the caller. *)
Lemma get_video_dimensions_lazy (f : string) (st : state W)
    (out : string) (w' : W) :
  host_run (probe_cmd f) (world st) = (Exited 0 out, w') ->
  contains_char "x" (strip out) = true ->
  fst (get_video_dimensions f st) = Ok (DimsMap (split "x" (strip out))).
Proof.
  intros Hrun Hx. rewrite get_video_dimensions_eq, Hrun. cbv zeta.
  cbn [Z.eqb]. now rewrite Hx.
Qed.

End Main.

(* ================================================================== *)
(** * Properties of the normalizer and of the batch run *)
(* ================================================================== *)

Section Properties.

Context {W : Type} `{Host W}.

(** C6. When the probe hands back the sentinel (0, 0), the normalizer
    returns [False] in the very state the probe left: between the call and
    the return the only tool run is ffprobe, followed by console notices;
    ffmpeg is not invoked. *)
Theorem sentinel_skips_transcode (input_file output_path : string)
    (encoding_args : list string) (st st1 : state W) (dims : dims_value) :
  get_video_dimensions input_file st = (Ok dims, st1) ->
  unpack2 dims = Ok (0%Z, 0%Z) ->
  process_video_file input_file output_path encoding_args st = (Ok false, st1)
  /\ exists o notices,
       trace st1 = trace st ++ EvRun (probe_cmd input_file) o
                               :: map EvPrint notices
       /\ transcode_runs (EvRun (probe_cmd input_file) o
                            :: map EvPrint notices) = [].
Proof.
  intros Hprobe Hdims. split.
  - exact (width_zero_gate _ _ _ _ _ _ _ Hprobe Hdims).
  - destruct (get_video_dimensions_trace input_file st) as (o & ns & Ht).
    rewrite Hprobe in Ht. exists o, ns. split; [exact Ht|].
    cbn [transcode_runs List.flat_map]. rewrite is_transcode_probe_cmd.
    apply transcode_runs_prints.
Qed.

(** C10. The gate looks at the width only: whenever the probed width is
    0, whatever the probed height, the normalizer returns [False] in the
    state the probe left, and ffmpeg is not invoked. *)
Theorem zero_width_skips_transcode (input_file output_path : string)
    (encoding_args : list string) (st st1 : state W) (dims : dims_value)
    (height : Z) :
  get_video_dimensions input_file st = (Ok dims, st1) ->
  unpack2 dims = Ok (0%Z, height) ->
  process_video_file input_file output_path encoding_args st = (Ok false, st1)
  /\ exists o notices,
       trace st1 = trace st ++ EvRun (probe_cmd input_file) o
                               :: map EvPrint notices
       /\ transcode_runs (EvRun (probe_cmd input_file) o
                            :: map EvPrint notices) = [].
Proof.
  intros Hprobe Hdims. split.
  - exact (width_zero_gate _ _ _ _ _ _ _ Hprobe Hdims).
  - destruct (get_video_dimensions_trace input_file st) as (o & ns & Ht).
    rewrite Hprobe in Ht. exists o, ns. split; [exact Ht|].
    cbn [transcode_runs List.flat_map]. rewrite is_transcode_probe_cmd.
    apply transcode_runs_prints.
Qed.

(** C3. Whenever a run writes a file, that file is the list file, it is
    written once, after every transcode of the run, and its content is the
    line-feed join of one line per transcode that exited with 0, in the
    order of these transcodes.  The i-th such transcode wrote the scratch
    file numbered i, so the i-th line names [processed_<i>.mp4] whatever
    the source was called; every line is [file '<path>'] where the path is
    the absolute path of the scratch file with every backslash replaced by
    a slash; the content ends with the closing quote of the last line. *)
Theorem manifest_lists_successes_in_order (st : state W)
    (new : list event) (p content : string) :
  trace (snd (main st)) = trace st ++ new ->
  In (p, content) (writes new) ->
  exists pre post,
    new = pre ++ EvWrite p content :: post
    /\ p = path_join TEMP_DIR "file_list.txt"
    /\ content = join nl (map manifest_entry (ok_outputs pre))
    /\ ok_outputs pre = map temp_path (seq 0 (List.length (ok_outputs pre)))
    /\ ok_outputs pre <> []
    /\ ok_outputs post = []
    /\ writes pre = [] /\ writes post = []
    /\ (forall out,
          manifest_entry out
          = ("file '" ++ replace_char "\" "/" (abspath out) ++ "'")%string
          /\ contains_char "\" (replace_char "\" "/" (abspath out)) = false)
    /\ exists body, content = (body ++ "'")%string.
Proof.
  intros Htr Hin.
  destruct (main_shape st) as (new' & Htr' & Hshape).
  rewrite Htr in Htr'. apply List.app_inv_head in Htr'. subst new'.
  destruct Hshape as [(_ & Hw) | (pre & rest & Hnew & _ & Hwp & Hne & Hnum
                                   & Hwr & Hor & _)].
  - rewrite Hw in Hin. destruct Hin.
  - rewrite Hnew, writes_app in Hin.
    cbn [writes List.flat_map List.app] in Hin.
    fold (writes rest) in Hin. rewrite Hwp, Hwr in Hin.
    destruct Hin as [Heq | []]. injection Heq as <- <-.
    exists pre, rest.
    repeat (split; [first [assumption | reflexivity]|]).
    split.
    + intros out. split; [reflexivity|].
      apply replace_char_removes. discriminate.
    + unfold manifest_entry. rewrite <- List.map_map.
      apply join_lines_end.
      intros Habs. apply List.map_eq_nil in Habs. contradiction.
Qed.

(** C7, as the script has it.  When the concatenating ffmpeg exits with a
    code other than 0, the exception is caught where it is raised: [main]
    returns normally, and what follows the invocation is the failure
    notice and then the closing hint about the scratch directory; the
    success notices are not among them.  There is one concatenating
    invocation in the run. *)
Theorem concat_failure_is_reported_and_absorbed (st : state W)
    (new : list event) (c : Z) (out : string) :
  trace (snd (main st)) = trace st ++ new ->
  In (Exited c out) (concat_runs new) ->
  c <> 0%Z ->
  fst (main st) = Ok tt
  /\ exists before,
       new = before ++
         [EvRun (concat_cmd (path_join TEMP_DIR "file_list.txt") OUTPUT_FILE)
            (Exited c out);
          EvPrint "❌ 合并阶段失败。";
          EvPrint (nl ++ "💡 提示: 临时文件保存在 '" ++ TEMP_DIR
                      ++ "' 目录。")%string]
       /\ concat_runs before = [].
Proof.
  intros Htr Hin Hc.
  destruct (main_shape st) as (new' & Htr' & Hshape).
  rewrite Htr in Htr'. apply List.app_inv_head in Htr'. subst new'.
  destruct Hshape as [(Hcr & _) | (pre & rest & Hnew & Hcp & _ & _ & _
                                    & _ & _ & Hfail)].
  - rewrite Hcr in Hin. destruct Hin.
  - rewrite Hnew, concat_runs_app in Hin.
    cbn [concat_runs List.flat_map List.app] in Hin.
    fold (concat_runs rest) in Hin. rewrite Hcp in Hin.
    destruct (Hfail c out Hin Hc) as (Hres & mid & Hrest & Hmid).
    split; [exact Hres|].
    exists (pre ++ EvWrite (path_join TEMP_DIR "file_list.txt")
                     (join nl (map manifest_entry (ok_outputs pre))) :: mid).
    split.
    + rewrite Hnew, Hrest, <- List.app_assoc. reflexivity.
    + rewrite concat_runs_app. cbn [concat_runs List.flat_map List.app].
      fold (concat_runs mid). now rewrite Hcp, Hmid.
Qed.

(** C8. When the scan ends with an empty list, [main] prints the notice
    and returns normally, in the state the scan left; in the whole run no
    transcode succeeded, nothing was concatenated and no list file was
    written. *)
Theorem empty_manifest_stops_before_merge (st st1 st2 : state W)
    (encoding_args : list string) :
  main_setup st = (Ok encoding_args, st1) ->
  main_scan encoding_args st1 = (Ok [], st2) ->
  main st = (Ok tt, emit (EvPrint (nl ++ "⚠️ 未找到视频文件。")) st2)
  /\ exists new,
       trace st2 = trace st ++ new
       /\ ok_outputs new = []
       /\ concat_runs new = []
       /\ writes new = [].
Proof.
  intros Hsetup Hscan. split.
  - unfold main, bind. rewrite Hsetup, Hscan. apply main_finish_empty.
  - destruct (main_setup_trace st) as (n0 & Ht0 & Hc0 & Hw0 & Ho0).
    destruct (main_scan_scanned encoding_args st1)
      as (n1 & Ht1 & Hc1 & Hw1 & Hs).
    rewrite Hsetup in Ht0. rewrite Hscan in Ht1, Hs.
    cbn [fst snd] in Ht0, Ht1, Hs. destruct Hs as (Hvf & _).
    cbn [List.app] in Hvf. symmetry in Hvf. apply List.map_eq_nil in Hvf.
    exists (n0 ++ n1).
    rewrite Ht1, Ht0, List.app_assoc, ok_outputs_app, concat_runs_app,
      writes_app, Ho0, Hvf, Hc0, Hc1, Hw0, Hw1.
    repeat split.
Qed.

End Properties.

(* ================================================================== *)
(** * The properties on simulated runs *)
(* ================================================================== *)

(** A clip without video stream: ffprobe prints nothing, the probe answers
    (0, 0) and the normalizer returns [False] without running ffmpeg. *)
Lemma sentinel_skips_transcode_witness :
  let st := Sim.start Sim.nothing_usable in
  let st1 := snd (get_video_dimensions "./audio.mov" st) in
  get_video_dimensions "./audio.mov" st = (Ok (DimsTuple 0 0), st1)
  /\ unpack2 (DimsTuple 0 0) = Ok (0%Z, 0%Z)
  /\ process_video_file "./audio.mov" "processed_temp/processed_0000.mp4"
       (cpu_video_args ++ common_args) st = (Ok false, st1).
Proof.
  intros st st1.
  assert (Hprobe : get_video_dimensions "./audio.mov" st
                   = (Ok (DimsTuple 0 0), st1)) by (vm_compute; reflexivity).
  assert (Hdims : unpack2 (DimsTuple 0 0) = Ok (0%Z, 0%Z)) by reflexivity.
  split; [exact Hprobe | split; [exact Hdims|]].
  exact (proj1 (sentinel_skips_transcode "./audio.mov"
                  "processed_temp/processed_0000.mp4"
                  (cpu_video_args ++ common_args) st st1 (DimsTuple 0 0)
                  Hprobe Hdims)).
Defined.

(** A clip probed as 0 x 720. *)
Lemma zero_width_skips_transcode_witness :
  let st := Sim.start Sim.zero_width in
  let st1 := snd (get_video_dimensions "./odd.avi" st) in
  get_video_dimensions "./odd.avi" st = (Ok (DimsMap ["0"; "720"]), st1)
  /\ unpack2 (DimsMap ["0"; "720"]) = Ok (0%Z, 720%Z)
  /\ process_video_file "./odd.avi" "processed_temp/processed_0000.mp4"
       (cpu_video_args ++ common_args) st = (Ok false, st1).
Proof.
  intros st st1.
  assert (Hprobe : get_video_dimensions "./odd.avi" st
                   = (Ok (DimsMap ["0"; "720"]), st1))
    by (vm_compute; reflexivity).
  assert (Hdims : unpack2 (DimsMap ["0"; "720"]) = Ok (0%Z, 720%Z))
    by (vm_compute; reflexivity).
  split; [exact Hprobe | split; [exact Hdims|]].
  exact (proj1 (zero_width_skips_transcode "./odd.avi"
                  "processed_temp/processed_0000.mp4"
                  (cpu_video_args ++ common_args) st st1
                  (DimsMap ["0"; "720"]) 720%Z Hprobe Hdims)).
Defined.

(** Two clips, both normalized: the list file holds their two lines. *)
Lemma manifest_lists_successes_in_order_witness :
  let run := main (Sim.start Sim.all_good) in
  let content :=
    ("file '/work/processed_temp/processed_0000.mp4'" ++ nl
       ++ "file '/work/processed_temp/processed_0001.mp4'")%string in
  In ("processed_temp/file_list.txt", content) (writes (trace (snd run)))
  /\ exists pre post,
       trace (snd run)
       = pre ++ EvWrite "processed_temp/file_list.txt" content :: post
       /\ content = join nl (map (manifest_entry (W := Sim.world))
                               (ok_outputs pre))
       /\ ok_outputs pre <> []
       /\ ok_outputs post = [].
Proof.
  intros run content.
  assert (Hin : In ("processed_temp/file_list.txt", content)
                  (writes (trace (snd run))))
    by (vm_compute; left; reflexivity).
  split; [exact Hin|].
  destruct (manifest_lists_successes_in_order (Sim.start Sim.all_good)
              (trace (snd run)) "processed_temp/file_list.txt" content
              eq_refl Hin)
    as (pre & post & Hnew & _ & Hcontent & _ & Hne & Hpost & _).
  exists pre, post. auto.
Defined.

(** Two clips normalized, then the concatenation exits with 1: [main]
    returns normally and ends with the failure notice and the hint. *)
Lemma concat_failure_is_reported_and_absorbed_witness :
  let run := main (Sim.start Sim.concat_fails) in
  In (Exited 1 "") (concat_runs (trace (snd run)))
  /\ (1 <> 0)%Z
  /\ fst run = Ok tt
  /\ exists before,
       trace (snd run) = before ++
         [EvRun (concat_cmd "processed_temp/file_list.txt" OUTPUT_FILE)
            (Exited 1 "");
          EvPrint "❌ 合并阶段失败。";
          EvPrint (nl ++ "💡 提示: 临时文件保存在 '" ++ TEMP_DIR
                      ++ "' 目录。")%string].
Proof.
  intros run.
  assert (Hin : In (Exited 1 "") (concat_runs (trace (snd run))))
    by (vm_compute; left; reflexivity).
  assert (Hne : (1 <> 0)%Z) by lia.
  split; [exact Hin | split; [exact Hne|]].
  destruct (concat_failure_is_reported_and_absorbed (Sim.start Sim.concat_fails)
              (trace (snd run)) 1%Z "" eq_refl Hin Hne)
    as (Hres & before & Hnew & _).
  split; [exact Hres|]. exists before. exact Hnew.
Defined.

(** No clip is usable: one has no video stream, the other fails to
    transcode.  The run ends with the notice, without list or merge. *)
Lemma empty_manifest_stops_before_merge_witness :
  let st := Sim.start Sim.nothing_usable in
  let args := cpu_video_args ++ common_args in
  let st1 := snd (main_setup st) in
  let st2 := snd (main_scan args st1) in
  main_setup st = (Ok args, st1)
  /\ main_scan args st1 = (Ok [], st2)
  /\ main st = (Ok tt, emit (EvPrint (nl ++ "⚠️ 未找到视频文件。")) st2).
Proof.
  intros st args st1 st2.
  assert (Hsetup : main_setup st = (Ok args, st1))
    by (vm_compute; reflexivity).
  assert (Hscan : main_scan args st1 = (Ok [], st2))
    by (vm_compute; reflexivity).
  split; [exact Hsetup | split; [exact Hscan|]].
  exact (proj1 (empty_manifest_stops_before_merge st st1 st2 args
                  Hsetup Hscan)).
Defined.

(** C7, as the claim has it, fails.  In this run the concatenation is the
    only one attempted and exits with 1; all the same [main] returns
    normally, with the outcome of the run whose concatenation exits with 0,
    and after the failure it goes on to print the closing hint. *)
Lemma concat_failure_not_propagated :
  let failed := main (Sim.start Sim.concat_fails) in
  let merged := main (Sim.start Sim.all_good) in
  concat_runs (trace (snd failed)) = [Exited 1 ""]
  /\ concat_runs (trace (snd merged)) = [Exited 0 ""]
  /\ fst failed = Ok tt
  /\ fst failed = fst merged
  /\ last (trace (snd failed)) (EvPrint "")
     = EvPrint (nl ++ "💡 提示: 临时文件保存在 '" ++ TEMP_DIR ++ "' 目录。")%string
  /\ ~ (forall (st : state Sim.world) (c : Z) (out : string),
          In (Exited c out) (concat_runs (trace (snd (main st)))) ->
          c <> 0%Z ->
          exists e, fst (main st) = Raise e).
Proof.
  intros failed merged.
  repeat (split; [vm_compute; reflexivity|]).
  intros Hclaim.
  destruct (Hclaim (Sim.start Sim.concat_fails) 1%Z "") as (e & He).
  - vm_compute. left. reflexivity.
  - lia.
  - vm_compute in He. discriminate He.
Qed.

(** C5 fails on probe output that holds an [x] without being two decimal
    numbers.  ffprobe exits with 0 and prints the size twice, on two lines:
    the probe hands back the unevaluated conversion instead of (0, 0), the
    [ValueError] is raised when the caller takes the pair apart, outside the
    probe's handler, and it ends the whole run.  The same happens for the
    output [axb]. *)
Theorem malformed_probe_output_raises :
  let st := Sim.start Sim.probe_prints_twice in
  let st' := Sim.start Sim.probe_not_numeric in
  host_run (probe_cmd "./clip.ts") (world st)
    = (Exited 0 ("1920x1080" ++ nl ++ "1920x1080" ++ nl), world st)
  /\ fst (get_video_dimensions "./clip.ts" st)
     = Ok (DimsMap ["1920"; ("1080" ++ nl ++ "1920")%string; "1080"])
  /\ fst (get_video_dimensions "./clip.ts" st) <> Ok (DimsTuple 0 0)
  /\ fst (process_video_file "./clip.ts" "processed_temp/processed_0000.mp4"
            (cpu_video_args ++ common_args) st) = Raise ValueError
  /\ fst (main st) = Raise ValueError
  /\ fst (get_video_dimensions "./clip.mp4" st') = Ok (DimsMap ["a"; "b"])
  /\ fst (process_video_file "./clip.mp4" "processed_temp/processed_0000.mp4"
            (cpu_video_args ++ common_args) st') = Raise ValueError
  /\ fst (main st') = Raise ValueError.
Proof.
  intros st st'.
  repeat (split; [vm_compute; first [reflexivity | discriminate]|]).
  vm_compute. reflexivity.
Qed.

(* ================================================================== *)
(** * Reading numbers back: [int] after [str] *)
(* ================================================================== *)

Lemma list_ascii_of_string_app (a b : string) :
  list_ascii_of_string (a ++ b)
  = list_ascii_of_string a ++ list_ascii_of_string b.
Proof.
  induction a as [|c a IH]; [reflexivity|].
  cbn [String.append list_ascii_of_string List.app]. now rewrite IH.
Qed.

Lemma append_inv_tail (a b s : string) :
  (a ++ s)%string = (b ++ s)%string -> a = b.
Proof.
  intros Heq. apply (f_equal list_ascii_of_string) in Heq.
  rewrite !list_ascii_of_string_app in Heq.
  apply List.app_inv_tail in Heq.
  apply (f_equal string_of_list_ascii) in Heq.
  now rewrite !string_of_list_ascii_of_string in Heq.
Qed.

Lemma append_inv_head (p a b : string) :
  (p ++ a)%string = (p ++ b)%string -> a = b.
Proof.
  induction p as [|c p IH]; cbn [String.append]; intros Heq; [exact Heq|].
  injection Heq as Heq. now apply IH.
Qed.

(** A decimal digit is none of the characters the script treats apart. *)
Lemma digit_is_plain (c : ascii) :
  digit_val c <> None ->
  isspace c = false
  /\ Ascii.eqb c "x" = false
  /\ Ascii.eqb c "-" = false
  /\ Ascii.eqb c "+" = false.
Proof.
  destruct c as [[] [] [] [] [] [] [] []]; vm_compute; intros Hd;
    first [now repeat split | now destruct Hd].
Qed.

Lemma lstrip_chars_spaces (ws cs : list ascii) :
  forallb isspace ws = true -> lstrip_chars (ws ++ cs) = lstrip_chars cs.
Proof.
  induction ws as [|w ws IH]; [reflexivity|].
  cbn [forallb List.app lstrip_chars]. intros Hws.
  apply andb_prop in Hws as (Hw & Hws). rewrite Hw. now apply IH.
Qed.

Lemma lstrip_chars_plain (cs : list ascii) :
  Forall (fun c => isspace c = false) cs -> lstrip_chars cs = cs.
Proof.
  intros Hcs. destruct Hcs as [|c cs Hc _]; [reflexivity|].
  cbn [lstrip_chars]. now rewrite Hc.
Qed.

(** [strip] removes trailing whitespace and leaves a text without
    whitespace as it is. *)
Lemma strip_trailing (core tail : list ascii) :
  Forall (fun c => isspace c = false) core ->
  forallb isspace tail = true ->
  strip (string_of_list_ascii (core ++ tail)) = string_of_list_ascii core.
Proof.
  intros Hcore Htail. unfold strip.
  rewrite list_ascii_of_string_of_list_ascii.
  assert (Hrev : forallb isspace (List.rev tail) = true).
  { apply forallb_forall. intros c Hc. apply List.in_rev in Hc.
    revert c Hc. now apply forallb_forall. }
  assert (Hplain : Forall (fun c => isspace c = false) (List.rev core))
    by now apply List.Forall_rev.
  destruct core as [|c core].
  - cbn [List.app]. rewrite <- (List.app_nil_r tail) at 1.
    rewrite lstrip_chars_spaces by exact Htail. reflexivity.
  - assert (Hc : isspace c = false) by now inversion Hcore.
    cbn [List.app lstrip_chars]. rewrite Hc.
    change (c :: core ++ tail) with ((c :: core) ++ tail).
    rewrite List.rev_app_distr, lstrip_chars_spaces by exact Hrev.
    rewrite lstrip_chars_plain by exact Hplain.
    now rewrite List.rev_involutive.
Qed.

Lemma strip_plain (s : string) :
  Forall (fun c => isspace c = false) (list_ascii_of_string s) ->
  strip s = s.
Proof.
  intros Hs.
  rewrite <- (string_of_list_ascii_of_string s) at 1.
  rewrite <- (List.app_nil_r (list_ascii_of_string s)).
  rewrite strip_trailing by (try exact Hs; reflexivity).
  apply string_of_list_ascii_of_string.
Qed.

Lemma int_isspace_isspace (c : ascii) :
  isspace c = false -> int_isspace c = false.
Proof.
  destruct c as [[] [] [] [] [] [] [] []]; vm_compute; intros Hc;
    first [reflexivity | discriminate Hc].
Qed.

Lemma int_lstrip_chars_plain (cs : list ascii) :
  Forall (fun c => isspace c = false) cs -> int_lstrip_chars cs = cs.
Proof.
  intros Hcs. destruct Hcs as [|c cs Hc _]; [reflexivity|].
  cbn [int_lstrip_chars]. now rewrite (int_isspace_isspace c Hc).
Qed.

(** [int] skips nothing around a text without whitespace. *)
Lemma int_skips_nothing (cs : list ascii) :
  Forall (fun c => isspace c = false) cs ->
  List.rev (int_lstrip_chars (List.rev (int_lstrip_chars cs))) = cs.
Proof.
  intros Hcs. rewrite (int_lstrip_chars_plain cs Hcs).
  rewrite int_lstrip_chars_plain by now apply List.Forall_rev.
  apply List.rev_involutive.
Qed.

Lemma uint_chars_are_digits (d : uint) :
  Forall (fun c => digit_val c <> None)
    (list_ascii_of_string (NilEmpty.string_of_uint d)).
Proof.
  induction d; cbn [NilEmpty.string_of_uint list_ascii_of_string];
    constructor; try exact IHd; discriminate.
Qed.

(** [parse_digits] on the digits of a numeral computes its value. *)
Lemma parse_digits_uint (d : uint) (acc : Z) (after_digit : bool) :
  parse_digits acc after_digit
    (list_ascii_of_string (NilEmpty.string_of_uint d))
  = match d with
    | Nil => if after_digit then Some acc else None
    | _ => Some (uint_value acc d)
    end.
Proof.
  revert acc after_digit.
  induction d; intros acc after_digit; [reflexivity|..];
    cbn [NilEmpty.string_of_uint list_ascii_of_string parse_digits];
    change (digit_val "0") with (Some 0%Z);
    change (digit_val "1") with (Some 1%Z);
    change (digit_val "2") with (Some 2%Z);
    change (digit_val "3") with (Some 3%Z);
    change (digit_val "4") with (Some 4%Z);
    change (digit_val "5") with (Some 5%Z);
    change (digit_val "6") with (Some 6%Z);
    change (digit_val "7") with (Some 7%Z);
    change (digit_val "8") with (Some 8%Z);
    change (digit_val "9") with (Some 9%Z);
    cbv iota beta; rewrite IHd; cbn [uint_value]; now destruct d.
Qed.

Lemma uint_value_pos (d : uint) (p : positive) :
  uint_value (Z.pos p) d = Z.pos (Pos.of_uint_acc d p).
Proof.
  revert p. induction d; intros p; [reflexivity|..];
    cbn [uint_value Pos.of_uint_acc]; rewrite <- IHd; f_equal; lia.
Qed.

Lemma uint_value_zero (d : uint) : uint_value 0 d = Z.of_N (Pos.of_uint d).
Proof.
  induction d; [reflexivity | exact IHd |..];
    cbn [uint_value Pos.of_uint Z.of_N];
    rewrite <- uint_value_pos; reflexivity.
Qed.

Lemma uint_value_nat (d : uint) (a : nat) :
  uint_value (Z.of_nat a) d = Z.of_nat (Nat.of_uint_acc d a).
Proof.
  revert a. induction d; intros a; [reflexivity|..];
    cbn [uint_value Nat.of_uint_acc]; rewrite <- IHd; f_equal;
    rewrite ?Nat.tail_mul_spec; lia.
Qed.

Lemma pos_to_uint_not_nil (p : positive) : Pos.to_uint p <> Nil.
Proof.
  intros Hnil. pose proof (DecimalPos.Unsigned.of_to p) as Hp.
  rewrite Hnil in Hp. discriminate Hp.
Qed.

Lemma str_of_int_chars (z : Z) :
  Forall (fun c => isspace c = false /\ Ascii.eqb c "x" = false)
    (list_ascii_of_string (str_of_int z)).
Proof.
  assert (Hu : forall d,
             Forall (fun c => isspace c = false /\ Ascii.eqb c "x" = false)
               (list_ascii_of_string (NilZero.string_of_uint d))).
  { intros d. destruct d; try (repeat constructor; fail);
      (eapply List.Forall_impl; [|apply uint_chars_are_digits]);
      intros c Hc; destruct (digit_is_plain c Hc) as (? & ? & _); now split. }
  unfold str_of_int. destruct (Z.to_int z) as [d | d].
  - apply Hu.
  - cbn [NilZero.string_of_int list_ascii_of_string].
    constructor; [now split | apply Hu].
Qed.

(** [int(str(z)) == z] for every integer. *)
Lemma int_str_of_int (z : Z) : int (str_of_int z) = Some z.
Proof.
  unfold int. rewrite int_skips_nothing.
  2:{ eapply List.Forall_impl; [|apply str_of_int_chars]. now intros c []. }
  unfold str_of_int. destruct z as [|p|p]; [reflexivity|..];
    cbn [Z.to_int NilZero.string_of_int];
    pose proof (pos_to_uint_not_nil p) as Hnil;
    pose proof (parse_digits_uint (Pos.to_uint p) 0 false) as Hparse;
    pose proof (DecimalPos.Unsigned.of_to p) as Hval;
    unfold NilZero.string_of_uint;
    destruct (Pos.to_uint p) as [|d|d|d|d|d|d|d|d|d|d] eqn:Hd;
    try congruence;
    cbn [list_ascii_of_string NilEmpty.string_of_uint] in Hparse |- *;
    cbv iota beta; rewrite Hparse, uint_value_zero, Hval; reflexivity.
Qed.

Lemma contains_char_plain (c : ascii) (s : string) :
  Forall (fun a => Ascii.eqb a c = false) (list_ascii_of_string s) ->
  contains_char c s = false.
Proof.
  induction s as [|a s IH]; cbn [list_ascii_of_string contains_char];
    intros Hs; [reflexivity|].
  inversion Hs as [|? ? Ha Hrest]; subst. rewrite Ha. now apply IH.
Qed.

Lemma contains_char_sep (c : ascii) (a b : string) :
  contains_char c (a ++ String c b) = true.
Proof.
  induction a as [|x a IH]; cbn [String.append contains_char].
  - now rewrite Ascii.eqb_refl.
  - destruct (Ascii.eqb x c); [reflexivity | exact IH].
Qed.

Lemma split_plain (c : ascii) (s : string) :
  contains_char c s = false -> split c s = [s].
Proof.
  induction s as [|a s IH]; cbn [contains_char split]; [reflexivity|].
  destruct (Ascii.eqb a c); [discriminate|].
  intros Hs. now rewrite IH.
Qed.

Lemma split_sep (c : ascii) (a b : string) :
  contains_char c a = false ->
  split c (a ++ String c b) = a :: split c b.
Proof.
  induction a as [|x a IH]; cbn [String.append contains_char split].
  - now rewrite Ascii.eqb_refl.
  - destruct (Ascii.eqb x c); [discriminate|].
    intros Ha. now rewrite IH.
Qed.

Lemma str_of_int_no_x (z : Z) : contains_char "x" (str_of_int z) = false.
Proof.
  apply contains_char_plain.
  eapply List.Forall_impl; [|apply (str_of_int_chars z)]. now intros c [].
Qed.

(** What ffprobe prints for a stream [w] x [h], up to trailing whitespace,
    is stripped to [WxH] and split into the two numerals. *)
Lemma probe_output_fields (w h : Z) (tail : string) :
  forallb isspace (list_ascii_of_string tail) = true ->
  let out := (str_of_int w ++ "x" ++ str_of_int h ++ tail)%string in
  contains_char "x" (strip out) = true
  /\ split "x" (strip out) = [str_of_int w; str_of_int h].
Proof.
  intros Htail out.
  assert (Hstrip : strip out = (str_of_int w ++ "x" ++ str_of_int h)%string).
  { subst out.
    set (core := (str_of_int w ++ "x" ++ str_of_int h)%string).
    replace (str_of_int w ++ "x" ++ str_of_int h ++ tail)%string
      with (string_of_list_ascii
              (list_ascii_of_string core ++ list_ascii_of_string tail)).
    2:{ subst core.
        rewrite <- !list_ascii_of_string_app, string_of_list_ascii_of_string.
        now rewrite !append_assoc. }
    rewrite strip_trailing; [apply string_of_list_ascii_of_string | | exact Htail].
    subst core.
    rewrite !list_ascii_of_string_app. apply List.Forall_app. split.
    - eapply List.Forall_impl; [|apply (str_of_int_chars w)]. now intros c [].
    - apply List.Forall_app. split; [repeat constructor|].
      eapply List.Forall_impl; [|apply (str_of_int_chars h)]. now intros c []. }
  rewrite Hstrip. change ("x" ++ str_of_int h)%string
    with (String "x" (str_of_int h)).
  split; [apply contains_char_sep|].
  rewrite split_sep by apply str_of_int_no_x.
  now rewrite split_plain by apply str_of_int_no_x.
Qed.

Lemma zeros_chars (k : nat) :
  list_ascii_of_string (zeros k) = List.repeat "0"%char k.
Proof. induction k as [|k IH]; [reflexivity|]. cbn. now rewrite IH. Qed.

Lemma parse_digits_zeros (k : nat) (after_digit : bool) (cs : list ascii) :
  cs <> [] ->
  parse_digits 0 after_digit (List.repeat "0"%char k ++ cs)
  = parse_digits 0 (after_digit || (0 <? k)%nat) cs.
Proof.
  intros Hcs. revert after_digit.
  induction k as [|k IH]; intros after_digit.
  - cbn [List.repeat List.app]. now rewrite Bool.orb_false_r.
  - cbn [List.repeat List.app parse_digits].
    change (digit_val "0") with (Some 0%Z). cbv iota beta.
    change (10 * 0 + 0)%Z with 0%Z. rewrite IH.
    now rewrite Bool.orb_true_r.
Qed.

Lemma nilzero_uint_chars (d : uint) :
  list_ascii_of_string (NilZero.string_of_uint d) <> []
  /\ Forall (fun c => digit_val c <> None)
       (list_ascii_of_string (NilZero.string_of_uint d))
  /\ forall after_digit,
       parse_digits 0 after_digit
         (list_ascii_of_string (NilZero.string_of_uint d))
       = Some (uint_value 0 d).
Proof.
  destruct d; try (split; [discriminate | split; [|intros b]];
                   [apply uint_chars_are_digits
                   |unfold NilZero.string_of_uint;
                    exact (parse_digits_uint _ 0 b)]).
  split; [discriminate | split; [repeat constructor; discriminate|]].
  intros b. reflexivity.
Qed.

(** On a text made of digits only, [int] is [parse_digits]. *)
Lemma int_of_digits (s : string) :
  Forall (fun c => digit_val c <> None) (list_ascii_of_string s) ->
  int s = parse_digits 0 false (list_ascii_of_string s).
Proof.
  intros Hs. unfold int. rewrite int_skips_nothing.
  2:{ eapply List.Forall_impl; [|exact Hs].
      intros c Hc. now destruct (digit_is_plain c Hc). }
  destruct Hs as [|c cs Hc _]; [reflexivity|].
  destruct c as [[] [] [] [] [] [] [] []]; try reflexivity;
    exfalso; apply Hc; reflexivity.
Qed.

(** The number field of a scratch file name reads back as the count. *)
Lemma int_format_04d (n : nat) : int (format_04d n) = Some (Z.of_nat n).
Proof.
  unfold format_04d.
  set (d := Nat.to_uint n). set (k := 4 - String.length _).
  destruct (nilzero_uint_chars d) as (Hne & Hdig & Hparse).
  assert (Hall : Forall (fun c => digit_val c <> None)
                   (list_ascii_of_string (zeros k ++ NilZero.string_of_uint d))).
  { rewrite list_ascii_of_string_app, zeros_chars. apply List.Forall_app.
    split; [|exact Hdig]. apply List.Forall_forall. intros c Hc.
    apply List.repeat_spec in Hc. subst c. discriminate. }
  rewrite int_of_digits by exact Hall.
  rewrite list_ascii_of_string_app, zeros_chars.
  rewrite parse_digits_zeros by exact Hne.
  rewrite Hparse. f_equal.
  change 0%Z with (Z.of_nat 0). rewrite uint_value_nat.
  f_equal. apply DecimalNat.Unsigned.of_to.
Qed.

(* ================================================================== *)
(** * More on the probe *)
(* ================================================================== *)

Section Probe.

Context {W : Type} `{Host W}.

(** X1. The failures the probe absorbs.  When launching ffprobe raises an
    exception of class [Exception] (tool not installed, undecodable
    output), or ffprobe exits with a code other than 0, the probe prints the
    notice naming the file and returns (0, 0); when ffprobe exits with 0 and
    its stripped output holds no [x] (no video stream: empty output), it
    returns (0, 0) without any notice.  In each case ffprobe ran once. *)
Theorem probe_failures_become_sentinel (f : string) (st : state W)
    (o : run_outcome) (w' : W) :
  host_run (probe_cmd f) (world st) = (o, w') ->
  match o with
  | RunRaised e => is_Exception e = true
  | Exited code out => code <> 0%Z \/ contains_char "x" (strip out) = false
  end ->
  get_video_dimensions f st =
    (Ok (DimsTuple 0 0),
     mkState w'
       (trace st ++ EvRun (probe_cmd f) o
          :: match o with
             | Exited 0%Z _ => []
             | _ => [EvPrint ("⚠️ 无法读取文件信息: " ++ basename f)%string]
             end)).
Proof.
  intros Hrun Hfail. rewrite get_video_dimensions_eq, Hrun. cbv zeta.
  destruct o as [e | code out].
  - rewrite Hfail. unfold emit. cbn [trace world].
    now rewrite <- List.app_assoc.
  - destruct code as [|p|p]; cbn [Z.eqb]; unfold emit; cbn [trace world];
      [|now rewrite <- List.app_assoc..].
    destruct Hfail as [Habs | ->]; [congruence | reflexivity].
Qed.

(** X2. The probe lets no exception of class [Exception] out: if it raises
    at all, what it raises is the [KeyboardInterrupt] that interrupted the
    launch of ffprobe. *)
Theorem probe_raises_only_interrupt (f : string) (st : state W) (e : exn) :
  fst (get_video_dimensions f st) = Raise e ->
  e = KeyboardInterrupt
  /\ fst (host_run (probe_cmd f) (world st)) = RunRaised KeyboardInterrupt.
Proof.
  rewrite get_video_dimensions_eq.
  destruct (host_run (probe_cmd f) (world st)) as [[e0 | code out] w'];
    cbv zeta.
  - destruct e0; cbn [is_Exception fst]; intros Heq;
      first [discriminate Heq | injection Heq as <-; now split].
  - destruct (code =? 0)%Z; [destruct (contains_char "x" (strip out))|];
      cbn [fst]; intros Heq; discriminate Heq.
Qed.

(** X3. Well-formed probe output is read back exactly.  When ffprobe exits
    with 0 and prints the decimal width, an [x], the decimal height and then
    only whitespace, and neither numeral is longer than the 4300 characters
    that [int] converts in every CPython, the probe hands back the two
    numerals unconverted, and taking the pair apart gives that width and
    that height. *)
Theorem wellformed_probe_is_parsed (f : string) (st : state W)
    (width height : Z) (tail : string) (w' : W) :
  (Z.of_nat (String.length (str_of_int width)) <= 4300)%Z ->
  (Z.of_nat (String.length (str_of_int height)) <= 4300)%Z ->
  forallb isspace (list_ascii_of_string tail) = true ->
  host_run (probe_cmd f) (world st)
  = (Exited 0 (str_of_int width ++ "x" ++ str_of_int height ++ tail), w') ->
  get_video_dimensions f st =
    (Ok (DimsMap [str_of_int width; str_of_int height]),
     mkState w'
       (trace st ++
        [EvRun (probe_cmd f)
           (Exited 0 (str_of_int width ++ "x" ++ str_of_int height ++ tail))]))
  /\ unpack2 (DimsMap [str_of_int width; str_of_int height])
     = Ok (width, height).
Proof.
  intros _ _ Htail Hrun.
  destruct (probe_output_fields width height tail Htail) as (Hx & Hsplit).
  split.
  - rewrite get_video_dimensions_eq, Hrun. cbv zeta. cbn [Z.eqb].
    now rewrite Hx, Hsplit.
  - cbn [unpack2]. now rewrite !int_str_of_int.
Qed.

End Probe.

Lemma probe_failures_become_sentinel_witness :
  let st := Sim.start Sim.no_ffprobe in
  host_run (probe_cmd "./a.mp4") (world st)
  = (RunRaised FileNotFoundError, Sim.no_ffprobe)
  /\ is_Exception FileNotFoundError = true
  /\ fst (get_video_dimensions "./a.mp4" st) = Ok (DimsTuple 0 0)
  /\ printed (trace (snd (get_video_dimensions "./a.mp4" st)))
     = ["⚠️ 无法读取文件信息: a.mp4"].
Proof.
  intros st.
  assert (Hrun : host_run (probe_cmd "./a.mp4") (world st)
                 = (RunRaised FileNotFoundError, Sim.no_ffprobe))
    by reflexivity.
  assert (Hexn : is_Exception FileNotFoundError = true) by reflexivity.
  split; [exact Hrun | split; [exact Hexn|]].
  rewrite (probe_failures_become_sentinel "./a.mp4" st
             (RunRaised FileNotFoundError) Sim.no_ffprobe Hrun Hexn).
  split; vm_compute; reflexivity.
Defined.

Lemma probe_raises_only_interrupt_witness :
  let st := Sim.start Faults.probe_interrupted in
  fst (get_video_dimensions "./a.mp4" st) = Raise KeyboardInterrupt
  /\ fst (host_run (probe_cmd "./a.mp4") (world st))
     = RunRaised KeyboardInterrupt.
Proof.
  intros st.
  assert (Hraise : fst (get_video_dimensions "./a.mp4" st)
                   = Raise KeyboardInterrupt) by (vm_compute; reflexivity).
  split; [exact Hraise|].
  exact (proj2 (probe_raises_only_interrupt "./a.mp4" st KeyboardInterrupt
                  Hraise)).
Defined.

Lemma wellformed_probe_is_parsed_witness :
  let st := Sim.start Sim.all_good in
  (Z.of_nat (String.length (str_of_int 1080)) <= 4300)%Z
  /\ (Z.of_nat (String.length (str_of_int 1920)) <= 4300)%Z
  /\ forallb isspace (list_ascii_of_string nl) = true
  /\ host_run (probe_cmd "./b.mp4") (world st)
     = (Exited 0 (str_of_int 1080 ++ "x" ++ str_of_int 1920 ++ nl),
        Sim.all_good)
  /\ fst (get_video_dimensions "./b.mp4" st) = Ok (DimsMap ["1080"; "1920"])
  /\ unpack2 (DimsMap ["1080"; "1920"]) = Ok (1080%Z, 1920%Z).
Proof.
  intros st.
  assert (Hw : (Z.of_nat (String.length (str_of_int 1080)) <= 4300)%Z)
    by (vm_compute; discriminate).
  assert (Hh : (Z.of_nat (String.length (str_of_int 1920)) <= 4300)%Z)
    by (vm_compute; discriminate).
  assert (Htail : forallb isspace (list_ascii_of_string nl) = true)
    by reflexivity.
  assert (Hrun : host_run (probe_cmd "./b.mp4") (world st)
                 = (Exited 0 (str_of_int 1080 ++ "x" ++ str_of_int 1920 ++ nl),
                    Sim.all_good)) by (vm_compute; reflexivity).
  split; [exact Hw | split; [exact Hh | split; [exact Htail
    | split; [exact Hrun|]]]].
  destruct (wellformed_probe_is_parsed "./b.mp4" st 1080 1920 nl Sim.all_good
              Hw Hh Htail Hrun) as (Hprobe & Hdims).
  split; [rewrite Hprobe; reflexivity | exact Hdims].
Defined.

(* ================================================================== *)
(** * Scratch file names *)
(* ================================================================== *)

(** X4. Scratch names never collide: different counts of normalized clips
    give different names [processed_<count>.mp4]. *)
Theorem temp_names_distinct (n m : nat) :
  n <> m -> temp_name n <> temp_name m.
Proof.
  intros Hnm Heq. apply Hnm. unfold temp_name in Heq.
  apply append_inv_head, append_inv_tail in Heq.
  apply (f_equal int) in Heq. rewrite !int_format_04d in Heq.
  injection Heq as Heq. now apply Nat2Z.inj.
Qed.

Lemma temp_names_distinct_witness :
  7 <> 12 /\ temp_name 7 <> temp_name 12.
Proof.
  assert (Hne : 7 <> 12) by lia.
  split; [exact Hne | exact (temp_names_distinct 7 12 Hne)].
Defined.

(** X5. The number field of a scratch name: it is made of decimal digits,
    at least four of them, and reads back as the count it was made from. *)
Theorem format_04d_field (n : nat) :
  4 <= String.length (format_04d n)
  /\ Forall (fun c => digit_val c <> None)
       (list_ascii_of_string (format_04d n))
  /\ int (format_04d n) = Some (Z.of_nat n).
Proof.
  split; [|split; [|apply int_format_04d]].
  - unfold format_04d.
    set (s := NilZero.string_of_uint (Nat.to_uint n)).
    assert (Hlen : forall a b : string,
               String.length (a ++ b) = String.length a + String.length b).
    { intros a b. induction a as [|c a IH]; [reflexivity|].
      cbn [String.append String.length]. now rewrite IH. }
    assert (Hz : forall k, String.length (zeros k) = k).
    { intros k. induction k as [|k IH]; [reflexivity|].
      cbn [zeros String.length]. now rewrite IH. }
    rewrite Hlen, Hz. lia.
  - unfold format_04d. rewrite list_ascii_of_string_app, zeros_chars.
    apply List.Forall_app. split.
    + apply List.Forall_forall. intros c Hc.
      apply List.repeat_spec in Hc. subst c. discriminate.
    + apply (nilzero_uint_chars (Nat.to_uint n)).
Qed.

(* ================================================================== *)
(** * More on normalizing one clip *)
(* ================================================================== *)

Lemma is_probe_probe_cmd (f : string) : is_probe (probe_cmd f) = true.
Proof. reflexivity. Qed.

Lemma last_probe_cmd (f : string) : last (probe_cmd f) EmptyString = f.
Proof. reflexivity. Qed.

Lemma is_probe_transcode_cmd (input_file : string) (filters args : list string)
    (output_path : string) :
  is_probe (transcode_cmd input_file filters args output_path) = false.
Proof. reflexivity. Qed.

Lemma is_probe_concat_cmd (l o : string) : is_probe (concat_cmd l o) = false.
Proof. reflexivity. Qed.

Lemma probed_app (a b : list event) :
  probed (a ++ b) = probed a ++ probed b.
Proof. apply flat_map_app. Qed.

Lemma launched_app (a b : list event) :
  launched (a ++ b) = launched a ++ launched b.
Proof. apply flat_map_app. Qed.

Ltac observe_calls :=
  cbn [probed launched ok_outputs concat_runs writes transcode_runs printed
       List.flat_map List.app fst snd];
  rewrite ?is_probe_probe_cmd, ?is_probe_transcode_cmd, ?is_probe_concat_cmd,
          ?last_probe_cmd,
          ?is_concat_probe_cmd, ?is_transcode_probe_cmd,
          ?is_transcode_cmd, ?is_concat_transcode_cmd,
          ?is_concat_concat_cmd, ?is_transcode_concat_cmd,
          ?last_transcode_cmd;
  repeat match goal with
         | Hc : (?c =? 0)%Z = _ |- _ => rewrite Hc
         end;
  cbn [andb List.app List.length].

Section Normalizer.

Context {W : Type} `{Host W}.

(** The tool runs of one call of [process_video_file]: ffprobe on the input
    first; then at most one ffmpeg transcode, of the input into the output
    path; the transcode exited with 0 exactly when the call returns [True]. *)
Lemma process_video_file_calls (input_file output_path : string)
    (encoding_args : list string) (st : state W) :
  exists new,
    trace (snd (process_video_file input_file output_path encoding_args st))
    = trace st ++ new
    /\ probed new = [input_file]
    /\ concat_runs new = []
    /\ writes new = []
    /\ launched new = probe_cmd input_file :: transcode_runs new
    /\ (transcode_runs new = []
        \/ exists portrait,
             transcode_runs new =
               [transcode_cmd input_file (build_filters portrait)
                  encoding_args output_path])
    /\ ok_outputs new =
         match fst (process_video_file input_file output_path encoding_args st)
         with
         | Ok true => [output_path]
         | _ => []
         end
    /\ (ok_outputs new = [] \/ transcode_runs new <> []).
Proof.
  destruct (process_video_file input_file output_path encoding_args st)
    as [r st'] eqn:Hrun.
  unfold process_video_file, bind at 1 in Hrun.
  rewrite get_video_dimensions_eq in Hrun.
  destruct (host_run (probe_cmd input_file) (world st)) as [o w'].
  assert (Hquiet : forall new : list event,
             transcode_runs new = [] -> ok_outputs new = [] ->
             (transcode_runs new = []
              \/ exists portrait,
                   transcode_runs new =
                     [transcode_cmd input_file (build_filters portrait)
                        encoding_args output_path])
             /\ ok_outputs new = []
             /\ (ok_outputs new = [] \/ transcode_runs new <> []))
    by (intros new Ht Ho; rewrite Ht, Ho; auto).
  destruct o as [e | code s]; step in Hrun.
  - destruct (is_Exception e); step in Hrun;
      cbn [unpack2 Z.eqb] in Hrun; step in Hrun;
      injection Hrun as <- <-; eexists; (split; [trace_eq|]);
      observe_calls; repeat split; auto.
  - destruct (code =? 0)%Z eqn:Hcode.
    2:{ cbn [unpack2 Z.eqb] in Hrun; step in Hrun.
        injection Hrun as <- <-; eexists; (split; [trace_eq|]);
          observe_calls; repeat split; auto. }
    destruct (contains_char "x" (strip s)).
    2:{ cbn [unpack2 Z.eqb] in Hrun; step in Hrun.
        injection Hrun as <- <-; eexists; (split; [trace_eq|]);
          observe_calls; repeat split; auto. }
    destruct (unpack2 _) as [[w h] | e].
    2:{ step in Hrun.
        injection Hrun as <- <-; eexists; (split; [trace_eq|]);
          observe_calls; repeat split; auto. }
    destruct (w =? 0)%Z.
    { step in Hrun.
      injection Hrun as <- <-; eexists; (split; [trace_eq|]);
        observe_calls; repeat split; auto. }
    step in Hrun.
    destruct (h >? w)%Z eqn:Hportrait; unfold subprocess_run in Hrun;
      step in Hrun;
      match type of Hrun with
      | context [host_run ?c ?w] => destruct (host_run c w) as [o2 w2]
      end;
      (destruct o2 as [e2 | c2 s2]; step in Hrun;
       [destruct e2 | destruct (c2 =? 0)%Z eqn:Hc2]);
      cbn [is_CalledProcessError] in Hrun;
      injection Hrun as <- <-; eexists; (split; [trace_eq|]);
      observe_calls;
      (repeat split; try reflexivity;
       first [right; eexists; reflexivity | right; discriminate]).
Qed.

End Normalizer.

Section NormalizerOutcome.

Context {W : Type} `{Host W}.

(** X6. Past the gate the outcome of the one ffmpeg launch decides
    everything: exit code 0 gives [True] after the completion notice; any
    other exit code, or a [CalledProcessError] from the launch, gives
    [False] after the failure notice naming the file; any other exception
    of the launch leaves the call as it is, with no notice.  Before the
    launch the call prints the processing notice with the probed size and,
    for a portrait clip, the rotation notice. *)
Theorem transcode_outcome_decides (input_file output_path : string)
    (encoding_args : list string) (st st1 : state W) (dims : dims_value)
    (width height : Z) (o : run_outcome) (w2 : W) :
  get_video_dimensions input_file st = (Ok dims, st1) ->
  unpack2 dims = Ok (width, height) ->
  width <> 0%Z ->
  host_run (transcode_cmd input_file (filters_for width height)
              encoding_args output_path) (world st1) = (o, w2) ->
  let cmd := transcode_cmd input_file (filters_for width height)
               encoding_args output_path in
  let processing :=
    EvPrint ("   🎞️ 处理中: " ++ basename input_file ++ " ("
               ++ str_of_int width ++ "x" ++ str_of_int height ++ ")")%string in
  let rotating := EvPrint "      ↪️ 发现竖屏，正在逆时针旋转 90°..." in
  let failed :=
    EvPrint ("      ❌ 失败: " ++ basename input_file
               ++ " (请检查文件是否损坏或显卡驱动)")%string in
  let before :=
    trace st1 ++ processing :: (if (height >? width)%Z then [rotating] else [])
              ++ [EvRun cmd o] in
  process_video_file input_file output_path encoding_args st =
    match o with
    | Exited code _ =>
        if (code =? 0)%Z
        then (Ok true, mkState w2 (before ++ [EvPrint transcode_done_notice]))
        else (Ok false, mkState w2 (before ++ [failed]))
    | RunRaised e =>
        if is_CalledProcessError e
        then (Ok false, mkState w2 (before ++ [failed]))
        else (Raise e, mkState w2 before)
    end.
Proof.
  intros Hprobe Hdims Hwidth Hrun cmd processing rotating failed before.
  subst cmd processing rotating failed before.
  unfold process_video_file, bind at 1.
  rewrite Hprobe, Hdims.
  destruct (Z.eqb_spec width 0) as [Heq | _]; [contradiction|].
  unfold filters_for in *. unfold subprocess_run. step.
  destruct (height >? width)%Z; step; rewrite Hrun;
    (destruct o as [e | code s]; step;
     [destruct e | destruct (code =? 0)%Z]);
    cbn [is_CalledProcessError]; unfold emit; cbn [trace world];
    rewrite <- ?List.app_assoc; reflexivity.
Qed.

(** X7. How [process_video_file] can raise.  Either the probe output could
    not be taken apart as a pair of integers: the exception is
    [ValueError], and ffprobe is the only tool that ran; or a launch itself
    raised something other than what the call absorbs, and that launch is
    the last event of the call. *)
Theorem normalizer_raises_only_so (input_file output_path : string)
    (encoding_args : list string) (st : state W) (e : exn) :
  fst (process_video_file input_file output_path encoding_args st) = Raise e ->
  exists new,
    trace (snd (process_video_file input_file output_path encoding_args st))
    = trace st ++ new
    /\ ((e = ValueError
         /\ launched new = [probe_cmd input_file]
         /\ exists dims st1,
              get_video_dimensions input_file st = (Ok dims, st1)
              /\ unpack2 dims = Raise ValueError)
        \/ (is_CalledProcessError e = false
            /\ exists cmd earlier,
                 new = earlier ++ [EvRun cmd (RunRaised e)])).
Proof.
  destruct (process_video_file input_file output_path encoding_args st)
    as [r st'] eqn:Hrun.
  cbn [fst snd]. intros ->.
  unfold process_video_file, bind at 1 in Hrun.
  destruct (get_video_dimensions input_file st) as [rd st1] eqn:Hprobe.
  rewrite get_video_dimensions_eq in Hprobe.
  destruct (host_run (probe_cmd input_file) (world st)) as [o w'].
  cbv zeta in Hprobe.
  destruct o as [e0 | code s].
  - destruct e0; cbn [is_Exception] in Hprobe;
      injection Hprobe as <- <-; cbn [unpack2 Z.eqb] in Hrun; step in Hrun;
      try discriminate Hrun.
    injection Hrun as <- <-. eexists. split; [trace_eq|].
    right. split; [reflexivity|]. now exists (probe_cmd input_file), [].
  - destruct (code =? 0)%Z eqn:Hcode.
    2:{ injection Hprobe as <- <-. cbn [unpack2 Z.eqb] in Hrun.
        step in Hrun. discriminate Hrun. }
    destruct (contains_char "x" (strip s)) eqn:Hx.
    2:{ injection Hprobe as <- <-. cbn [unpack2 Z.eqb] in Hrun.
        step in Hrun. discriminate Hrun. }
    injection Hprobe as <- <-.
    destruct (unpack2 (DimsMap (split "x" (strip s)))) as [[w h] | e1] eqn:Hdims.
    2:{ step in Hrun. injection Hrun as <- <-.
        assert (He1 : e1 = ValueError).
        { cbn [unpack2] in Hdims.
          destruct (split "x" (strip s)) as [|a [|b [|c l]]];
            try (now injection Hdims as <-).
          destruct (int a); [destruct (int b)|];
            first [discriminate Hdims | now injection Hdims as <-]. }
        subst e1. eexists. split; [trace_eq|]. left.
        split; [reflexivity | split; [reflexivity|]].
        eexists; eexists; split; [reflexivity | exact Hdims]. }
    destruct (w =? 0)%Z; [step in Hrun; discriminate Hrun|].
    step in Hrun.
    destruct (h >? w)%Z; unfold subprocess_run in Hrun; step in Hrun;
      match type of Hrun with
      | context [host_run ?c ?w] => destruct (host_run c w) as [o2 w2]
      end;
      (destruct o2 as [e2 | c2 s2]; step in Hrun;
       [destruct e2 | destruct (c2 =? 0)%Z]);
      cbn [is_CalledProcessError] in Hrun; try discriminate Hrun;
      injection Hrun as <- <-; eexists; (split; [trace_eq|]);
      right; (split; [reflexivity|]);
      eexists; first [ now eexists [_; _] | now eexists [_; _; _] ].
Qed.

(** X8. One candidate of the scan.  Exactly one file is probed, the
    candidate; at most one transcode is launched, and it writes the scratch
    file numbered by the current length of the list; the list gains one
    line, naming that scratch file, exactly when that transcode exits with
    0, and is handed on unchanged otherwise, so that the number is used
    again for the next candidate. *)
Theorem candidate_step (encoding_args : list string) (input_file : string)
    (valid_files : list string) (st : state W) :
  let slot := temp_path (List.length valid_files) in
  exists new,
    trace (snd (process_candidate encoding_args input_file valid_files st))
    = trace st ++ new
    /\ probed new = [input_file]
    /\ List.length (transcode_runs new) <= 1
    /\ Forall (fun cmd => last cmd EmptyString = slot) (transcode_runs new)
    /\ match fst (process_candidate encoding_args input_file valid_files st)
       with
       | Ok valid_files' =>
           (ok_outputs new = [] /\ valid_files' = valid_files)
           \/ (ok_outputs new = [slot]
               /\ valid_files' = valid_files ++ [manifest_entry slot])
       | Raise _ => ok_outputs new = []
       end.
Proof.
  intros slot. unfold process_candidate, bind.
  destruct (process_video_file_calls input_file slot encoding_args st)
    as (new & Ht & Hp & _ & _ & _ & Hruns & Ho & _).
  change (path_join TEMP_DIR (temp_name (List.length valid_files))) with slot.
  destruct (process_video_file input_file slot encoding_args st) as [r st1].
  cbn [fst snd] in *. exists new.
  assert (Hone : List.length (transcode_runs new) <= 1
                 /\ Forall (fun cmd => last cmd EmptyString = slot)
                      (transcode_runs new)).
  { destruct Hruns as [-> | (b & ->)]; cbn [List.length].
    - split; [lia | constructor].
    - split; [lia|]. constructor; [apply last_transcode_cmd | constructor]. }
  destruct Hone as (Hlen & Hslot).
  destruct r as [[|] | e]; cbn [ret fst snd];
    (split; [exact Ht | split; [exact Hp | split; [exact Hlen |
      split; [exact Hslot|]]]]); auto.
Qed.

Lemma for_each_probed (encoding_args : list string) (files : list string) :
  forall (valid_files : list string) (st : state W),
  exists new rest,
    trace (snd (for_each files (process_candidate encoding_args)
                  valid_files st)) = trace st ++ new
    /\ files = probed new ++ rest
    /\ (forall r, fst (for_each files (process_candidate encoding_args)
                         valid_files st) = Ok r -> rest = []).
Proof.
  induction files as [|f files IH]; intros vf st.
  - exists [], []. cbn. rewrite List.app_nil_r. auto.
  - cbn [for_each]. unfold bind.
    assert (Hstep : exists n1,
               trace (snd (process_candidate encoding_args f vf st))
               = trace st ++ n1 /\ probed n1 = [f]).
    { unfold process_candidate, bind.
      destruct (process_video_file_calls f
                  (path_join TEMP_DIR (temp_name (List.length vf)))
                  encoding_args st) as (n1 & Ht & Hp & _).
      destruct (process_video_file _ _ _ st) as [[[|] | e] st1];
        cbn [ret fst snd] in *; now exists n1. }
    destruct Hstep as (n1 & Ht1 & Hp1).
    destruct (process_candidate encoding_args f vf st) as [[vf1 | e] st1];
      cbn [fst snd] in *.
    + destruct (IH vf1 st1) as (n2 & rest & Ht2 & Hfiles & Hdone).
      exists (n1 ++ n2), rest. split; [|split].
      * now rewrite Ht2, Ht1, List.app_assoc.
      * rewrite probed_app, Hp1, Hfiles. reflexivity.
      * exact Hdone.
    + exists n1, files. split; [exact Ht1|]. split.
      * now rewrite Hp1.
      * intros r Habs. discriminate Habs.
Qed.

(** X9. One extension of the scan.  The files probed are the files the
    directory listing matched, in the order of the listing, except those
    whose absolute path is that of the merged output: none of these is ever
    probed.  The files are taken one after the other, each probed once; all
    of them when the loop ends normally, an initial part when an exception
    ends it. *)
Theorem extension_probes_listing_in_order (encoding_args : list string)
    (ext : string) (valid_files : list string) (st : state W) :
  let listing := host_glob (path_join INPUT_DIR ("*." ++ ext)) (world st) in
  let candidates :=
    filter (fun f => negb (String.eqb (abspath f) (abspath OUTPUT_FILE)))
      listing in
  exists new rest,
    trace (snd (process_extension encoding_args ext valid_files st))
    = trace st ++ new
    /\ candidates = probed new ++ rest
    /\ (forall r, fst (process_extension encoding_args ext valid_files st)
                  = Ok r -> rest = [])
    /\ Forall (fun f => In f listing /\ abspath f <> abspath OUTPUT_FILE)
         (probed new).
Proof.
  intros listing candidates.
  unfold process_extension, bind, glob. cbn [fst snd].
  fold listing. fold candidates.
  destruct (for_each_probed encoding_args candidates valid_files st)
    as (new & rest & Ht & Hfiles & Hdone).
  exists new, rest. repeat split; try assumption.
  apply List.Forall_forall. intros f Hf.
  assert (Hin : In f candidates)
    by (rewrite Hfiles; apply List.in_or_app; now left).
  apply List.filter_In in Hin. destruct Hin as (Hl & Hne).
  split; [exact Hl|].
  apply Bool.negb_true_iff in Hne. now apply String.eqb_neq in Hne.
Qed.

End NormalizerOutcome.

(* ================================================================== *)
(** * More on the merge and on the whole run *)
(* ================================================================== *)

(** Instantiates an outcome with the one recorded in the trace at hand. *)
Ltac pick_outcome :=
  match goal with
  | |- context [EvRun (concat_cmd _ _) (RunRaised ?e)] => exists (RunRaised e)
  | |- context [EvRun (concat_cmd _ _) (Exited ?c ?s)] => exists (Exited c s)
  end.

Section MergeCases.

Context {W : Type} `{Host W}.

(** X10. [merge_videos] step by step.  After the opening notice, the old
    output file is removed when, and only when, it exists; only then is
    ffmpeg launched, once, in concat mode on the list file, and what follows
    the launch are console notices.  If the removal raises, ffmpeg is not
    launched and the exception leaves [merge_videos]. *)
Theorem merge_removes_old_output_first (list_file output_file : string)
    (st : state W) :
  let opening :=
    EvPrint (nl ++ "🚀 开始合并所有片段到 " ++ output_file ++ " ...")%string in
  let present := host_exists output_file (world st) in
  exists tail,
    trace (snd (merge_videos list_file output_file st))
    = trace st ++ opening :: (if present then [EvRemove output_file] else [])
                  ++ tail
    /\ ((exists o notices,
           tail = EvRun (concat_cmd list_file output_file) o
                    :: map EvPrint notices)
        \/ (tail = []
            /\ present = true
            /\ exists e,
                 fst (host_remove output_file (world st)) = Raise e
                 /\ fst (merge_videos list_file output_file st) = Raise e)).
Proof.
  intros opening present. subst opening present.
  destruct (merge_videos list_file output_file st) as [r st'] eqn:Hrun.
  unfold merge_videos, path_exists, remove, subprocess_run in Hrun.
  step in Hrun.
  destruct (host_exists output_file (world st)); step in Hrun.
  - destruct (host_remove output_file (world st)) as [[[] | e] w1];
      step in Hrun.
    2:{ injection Hrun as <- <-. exists []. split; [trace_eq|].
        right. repeat split. now exists e. }
    destruct (host_run _ w1) as [[e | c2 s2] w2]; step in Hrun;
      [destruct (is_CalledProcessError e) | destruct (c2 =? 0)%Z];
      injection Hrun as <- <-; eexists; (split; [trace_eq|]); left;
      eexists;
      first [now exists [] | now eexists [_] | now eexists [_; _]].
  - destruct (host_run _ (world st)) as [[e | c2 s2] w2]; step in Hrun;
      [destruct (is_CalledProcessError e) | destruct (c2 =? 0)%Z];
      injection Hrun as <- <-; eexists; (split; [trace_eq|]); left;
      eexists;
      first [now exists [] | now eexists [_] | now eexists [_; _]].
Qed.

(** What [main] does once the list is not empty, case by case: the write of
    the list raises; or the removal of the old output raises; or ffmpeg is
    launched in concat mode, and its outcome decides the notices and the
    result. *)
Lemma main_finish_events (valid_files : list string) (st : state W) :
  valid_files <> [] ->
  let list_file := path_join TEMP_DIR "file_list.txt" in
  exists tail,
    trace (snd (main_finish valid_files st))
    = trace st ++ EvWrite list_file (join nl valid_files) :: tail
    /\ ((tail = [] /\ exists e, fst (main_finish valid_files st) = Raise e)
        \/ (tail = [merge_opening OUTPUT_FILE; EvRemove OUTPUT_FILE]
            /\ exists e, fst (main_finish valid_files st) = Raise e)
        \/ exists (present : bool) (o : run_outcome),
             tail = merge_opening OUTPUT_FILE
                      :: (if present then [EvRemove OUTPUT_FILE] else [])
                      ++ EvRun (concat_cmd list_file OUTPUT_FILE) o
                      :: after_concat o
             /\ fst (main_finish valid_files st) = concat_result o).
Proof.
  intros Hne list_file.
  destruct valid_files as [|v vs]; [congruence|].
  destruct (main_finish (v :: vs) st) as [r st'] eqn:Hrun.
  unfold main_finish in Hrun. cbv beta iota zeta in Hrun.
  fold list_file in Hrun.
  set (content := join nl (v :: vs)) in *.
  unfold write_file, merge_videos, path_exists, remove, subprocess_run in Hrun.
  step in Hrun.
  destruct (host_write list_file content (world st)) as [[[] | e] w1];
    step in Hrun.
  2:{ injection Hrun as <- <-. exists []. split; [trace_eq|].
      left. split; [reflexivity | now exists e]. }
  destruct (host_exists OUTPUT_FILE w1); step in Hrun.
  - destruct (host_remove OUTPUT_FILE w1) as [[[] | e] w2]; step in Hrun.
    2:{ injection Hrun as <- <-. eexists. split; [trace_eq|].
        right; left. split; [reflexivity | now exists e]. }
    destruct (host_run _ w2) as [[e | c2 s2] w3]; step in Hrun;
      [destruct e | destruct c2 as [|p|p]];
      cbn [is_CalledProcessError Z.eqb] in Hrun;
      injection Hrun as <- <-; eexists; (split; [trace_eq|]);
      right; right; exists true; pick_outcome; split; reflexivity.
  - destruct (host_run _ w1) as [[e | c2 s2] w3]; step in Hrun;
      [destruct e | destruct c2 as [|p|p]];
      cbn [is_CalledProcessError Z.eqb] in Hrun;
      injection Hrun as <- <-; eexists; (split; [trace_eq|]);
      right; right; exists false; pick_outcome; split; reflexivity.
Qed.

End MergeCases.

Section RunCases.

Context {W : Type} `{Host W}.

Lemma after_concat_quiet (o : run_outcome) :
  launched (after_concat o) = []
  /\ concat_runs (after_concat o) = []
  /\ writes (after_concat o) = [].
Proof. destruct o as [[] | [|p|p] s]; repeat split. Qed.

(** Every run of [main], by the place where it ends. *)
Lemma main_events (st : state W) :
  let list_file := path_join TEMP_DIR "file_list.txt" in
  exists new,
    trace (snd (main st)) = trace st ++ new
    /\ ((concat_runs new = [] /\ writes new = [])
        \/ exists pre tail,
             new = pre ++ EvWrite list_file
                            (join nl (map manifest_entry (ok_outputs pre)))
                          :: tail
             /\ concat_runs pre = []
             /\ writes pre = []
             /\ ok_outputs pre <> []
             /\ ((tail = [] /\ exists e, fst (main st) = Raise e)
                 \/ (tail = [merge_opening OUTPUT_FILE; EvRemove OUTPUT_FILE]
                     /\ exists e, fst (main st) = Raise e)
                 \/ exists (present : bool) (o : run_outcome),
                      tail = merge_opening OUTPUT_FILE
                               :: (if present then [EvRemove OUTPUT_FILE]
                                   else [])
                               ++ EvRun (concat_cmd list_file OUTPUT_FILE) o
                               :: after_concat o
                      /\ fst (main st) = concat_result o)).
Proof.
  intros list_file. unfold main, bind.
  destruct (main_setup_trace st) as (n0 & Ht0 & Hc0 & Hw0 & Ho0).
  destruct (main_setup st) as [[args | e] st0]; cbn [fst snd] in *.
  2:{ exists n0. split; [exact Ht0 | left; now split]. }
  destruct (main_scan_scanned args st0) as (n1 & Ht1 & Hc1 & Hw1 & Hs).
  destruct (main_scan args st0) as [[vf | e] st1]; cbn [fst snd] in *.
  2:{ exists (n0 ++ n1). rewrite Ht1, Ht0, List.app_assoc.
      split; [reflexivity | left].
      now rewrite concat_runs_app, writes_app, Hc0, Hc1, Hw0, Hw1. }
  destruct Hs as (Hvf & _). cbn [List.app] in Hvf.
  assert (Hpre : ok_outputs (n0 ++ n1) = ok_outputs n1)
    by now rewrite ok_outputs_app, Ho0.
  destruct vf as [|v vs].
  - rewrite main_finish_empty. cbn [fst snd emit trace].
    exists ((n0 ++ n1) ++ [EvPrint (nl ++ "⚠️ 未找到视频文件。")]).
    rewrite Ht1, Ht0, !List.app_assoc. split; [reflexivity | left].
    now rewrite !concat_runs_app, !writes_app, Hc0, Hc1, Hw0, Hw1.
  - destruct (main_finish_events (v :: vs) st1) as (tail & Ht2 & Hcases);
      [discriminate|].
    exists ((n0 ++ n1) ++ EvWrite list_file (join nl (v :: vs)) :: tail).
    split.
    + rewrite Ht2, Ht1, Ht0, !List.app_assoc. reflexivity.
    + right. exists (n0 ++ n1), tail.
      rewrite Hpre, <- Hvf.
      split; [reflexivity|].
      split; [now rewrite concat_runs_app, Hc0, Hc1|].
      split; [now rewrite writes_app, Hw0, Hw1|].
      split; [intros Habs; rewrite Habs in Hvf; discriminate Hvf|].
      exact Hcases.
Qed.

(** The events after the list has been written, read for launches. *)
Lemma merge_tail_runs (list_file : string) (present : bool) (o : run_outcome) :
  let tail := merge_opening OUTPUT_FILE
                :: (if present then [EvRemove OUTPUT_FILE] else [])
                ++ EvRun (concat_cmd list_file OUTPUT_FILE) o
                :: after_concat o in
  concat_runs tail = [o]
  /\ launched tail = [concat_cmd list_file OUTPUT_FILE].
Proof.
  destruct (after_concat_quiet o) as (Hl & Hc & _).
  destruct present; cbn [List.app concat_runs launched List.flat_map];
    fold (concat_runs (after_concat o)); fold (launched (after_concat o));
    rewrite ?is_concat_concat_cmd, Hl, Hc; split; reflexivity.
Qed.

(** X11. A merge that succeeds.  When the concatenating ffmpeg exits with
    0, [main] returns normally, and the run ends with that launch, the two
    success notices (the second gives the absolute path of the merged file)
    and the closing hint.  There is one concatenating launch in the run. *)
Theorem merged_run_ends_with_success_notices (st : state W)
    (new : list event) (out : string) :
  trace (snd (main st)) = trace st ++ new ->
  In (Exited 0 out) (concat_runs new) ->
  fst (main st) = Ok tt
  /\ exists before,
       new = before ++
         [EvRun (concat_cmd (path_join TEMP_DIR "file_list.txt") OUTPUT_FILE)
            (Exited 0 out);
          EvPrint merge_done_notice;
          EvPrint ("📂 输出文件: " ++ abspath OUTPUT_FILE)%string;
          EvPrint closing_hint]
       /\ concat_runs before = [].
Proof.
  intros Htr Hin.
  destruct (main_events st) as (new' & Htr' & Hcases).
  rewrite Htr in Htr'. apply List.app_inv_head in Htr'. subst new'.
  destruct Hcases as [(Hc & _) | (pre & tail & Hnew & Hcp & _ & _ & Htail)].
  { rewrite Hc in Hin. destruct Hin. }
  rewrite Hnew, concat_runs_app in Hin.
  cbn [concat_runs List.flat_map List.app] in Hin.
  fold (concat_runs tail) in Hin. rewrite Hcp in Hin. cbn [List.app] in Hin.
  destruct Htail as [(-> & _) | [(-> & _) | (present & o & -> & Hres)]];
    try (destruct Hin; fail).
  destruct (merge_tail_runs (path_join TEMP_DIR "file_list.txt") present o)
    as (Hruns & _).
  cbv zeta in Hruns. rewrite Hruns in Hin.
  destruct Hin as [-> | []].
  split; [exact Hres|].
  eexists (pre ++ EvWrite _ _ :: merge_opening OUTPUT_FILE
                :: (if present then [EvRemove OUTPUT_FILE] else [])).
  split.
  - rewrite Hnew, <- !List.app_assoc. reflexivity.
  - rewrite concat_runs_app, Hcp. now destruct present.
Qed.

(** X12. A merge that cannot be launched.  When launching the
    concatenating ffmpeg raises anything but [CalledProcessError] (ffmpeg is
    not installed, for one), the exception leaves [main]: the launch is the
    last event of the run, and neither a notice nor the closing hint
    follows. *)
Theorem merge_launch_failure_escapes (st : state W) (new : list event)
    (e : exn) :
  trace (snd (main st)) = trace st ++ new ->
  In (RunRaised e) (concat_runs new) ->
  is_CalledProcessError e = false ->
  fst (main st) = Raise e
  /\ exists before,
       new = before ++
         [EvRun (concat_cmd (path_join TEMP_DIR "file_list.txt") OUTPUT_FILE)
            (RunRaised e)]
       /\ concat_runs before = [].
Proof.
  intros Htr Hin He.
  destruct (main_events st) as (new' & Htr' & Hcases).
  rewrite Htr in Htr'. apply List.app_inv_head in Htr'. subst new'.
  destruct Hcases as [(Hc & _) | (pre & tail & Hnew & Hcp & _ & _ & Htail)].
  { rewrite Hc in Hin. destruct Hin. }
  rewrite Hnew, concat_runs_app in Hin.
  cbn [concat_runs List.flat_map List.app] in Hin.
  fold (concat_runs tail) in Hin. rewrite Hcp in Hin. cbn [List.app] in Hin.
  destruct Htail as [(-> & _) | [(-> & _) | (present & o & -> & Hres)]];
    try (destruct Hin; fail).
  destruct (merge_tail_runs (path_join TEMP_DIR "file_list.txt") present o)
    as (Hruns & _).
  cbv zeta in Hruns. rewrite Hruns in Hin.
  destruct Hin as [-> | []].
  assert (Hafter : after_concat (RunRaised e) = []
                   /\ concat_result (RunRaised e) = Raise e)
    by (destruct e; first [discriminate He | split; reflexivity]).
  destruct Hafter as (Hafter & Hraise).
  split; [now rewrite Hres|].
  eexists (pre ++ EvWrite _ _ :: merge_opening OUTPUT_FILE
                :: (if present then [EvRemove OUTPUT_FILE] else [])).
  split.
  - rewrite Hnew, Hafter, <- !List.app_assoc. reflexivity.
  - rewrite concat_runs_app, Hcp. now destruct present.
Qed.

(** X13. The merge comes last and once.  If a run launches the
    concatenating ffmpeg at all, it does so exactly once, on the list file,
    after the list file has been written with one line per successful
    transcode: at least one transcode succeeded, and from the writing of the
    list on, that launch is the only launch of the run. *)
Theorem merge_is_launched_once_after_the_list (st : state W)
    (new : list event) :
  trace (snd (main st)) = trace st ++ new ->
  concat_runs new <> [] ->
  let list_file := path_join TEMP_DIR "file_list.txt" in
  exists pre rest o,
    new = pre ++ EvWrite list_file
                   (join nl (map manifest_entry (ok_outputs pre))) :: rest
    /\ ok_outputs pre <> []
    /\ concat_runs pre = []
    /\ concat_runs new = [o]
    /\ launched rest = [concat_cmd list_file OUTPUT_FILE].
Proof.
  intros Htr Hrun list_file.
  destruct (main_events st) as (new' & Htr' & Hcases).
  rewrite Htr in Htr'. apply List.app_inv_head in Htr'. subst new'.
  destruct Hcases as [(Hc & _) | (pre & tail & Hnew & Hcp & _ & Hok & Htail)].
  { contradiction. }
  assert (Hall : concat_runs new = concat_runs tail).
  { rewrite Hnew, concat_runs_app, Hcp.
    cbn [concat_runs List.flat_map List.app]. reflexivity. }
  destruct Htail as [(-> & _) | [(-> & _) | (present & o & -> & Hres)]];
    try (rewrite Hall in Hrun; now destruct Hrun).
  destruct (merge_tail_runs list_file present o) as (Hruns & Hlaunch).
  cbv zeta in Hruns, Hlaunch.
  exists pre. eexists. exists o. split; [exact Hnew|].
  split; [exact Hok | split; [exact Hcp|]].
  split; [now rewrite Hall | exact Hlaunch].
Qed.

(** X14. A list that is written but not merged.  If a run writes the list
    file and yet launches no concatenation, then it ended in an exception,
    raised either by the writing itself or by the removal of the old merged
    file: the run ends with that event. *)
Theorem list_without_merge_means_failure (st : state W) (new : list event) :
  trace (snd (main st)) = trace st ++ new ->
  writes new <> [] ->
  concat_runs new = [] ->
  exists e earlier,
    fst (main st) = Raise e
    /\ (new = earlier ++ [EvRemove OUTPUT_FILE]
        \/ exists content,
             new = earlier ++ [EvWrite (path_join TEMP_DIR "file_list.txt")
                                 content]).
Proof.
  intros Htr Hw Hc.
  destruct (main_events st) as (new' & Htr' & Hcases).
  rewrite Htr in Htr'. apply List.app_inv_head in Htr'. subst new'.
  destruct Hcases as [(_ & Hw') | (pre & tail & Hnew & Hcp & _ & _ & Htail)].
  { contradiction. }
  destruct Htail as [(-> & e & He) | [(-> & e & He)
                                      | (present & o & -> & Hres)]].
  - exists e, pre. split; [exact He|]. right. eexists. exact Hnew.
  - exists e. eexists (pre ++ [EvWrite _ _; merge_opening OUTPUT_FILE]).
    split; [exact He|]. left.
    rewrite Hnew, <- List.app_assoc. reflexivity.
  - exfalso.
    destruct (merge_tail_runs (path_join TEMP_DIR "file_list.txt") present o)
      as (Hruns & _).
    cbv zeta in Hruns.
    assert (Hall : concat_runs new = [o]).
    { rewrite Hnew, concat_runs_app, Hcp. rewrite <- Hruns. reflexivity. }
    rewrite Hall in Hc. discriminate Hc.
Qed.

End RunCases.

(* ================================================================== *)
(** * The set-up phase *)
(* ================================================================== *)

Section Setup.

Context {W : Type} `{Host W}.

(** X15. The set-up when nothing fails.  The line the user types, when it
    is made of ASCII characters, is stripped before it selects the mode: it
    selects the hardware arguments when what is left is [2], the software
    arguments otherwise; the selection is announced.  Then the scratch
    directory is removed if, and only if, it exists, and created anew.
    Nothing else happens before the scan. *)
Theorem setup_selects_mode_and_resets_scratch (st : state W) (line : string)
    (w1 w2 w3 : W) :
  forallb (fun c => (nat_of_ascii c <? 128)%nat) (list_ascii_of_string line)
  = true ->
  host_input mode_prompt (world st) = (Ok line, w1) ->
  (if host_exists TEMP_DIR w1 then host_rmtree TEMP_DIR w1 else (Ok tt, w1))
  = (Ok tt, w2) ->
  host_makedirs TEMP_DIR w2 = (Ok tt, w3) ->
  let hardware := String.eqb (strip line) "2" in
  main_setup st =
    (Ok ((if hardware then gpu_video_args else cpu_video_args) ++ common_args),
     mkState w3
       (trace st ++ banner
          ++ [EvInput mode_prompt;
              EvPrint (if hardware
                       then "⚡ 已启用 NVIDIA GPU 加速 (h264_nvenc)"
                       else "🐢 已启用 CPU 编码 (libx264)")]
          ++ (if host_exists TEMP_DIR w1 then [EvRmtree TEMP_DIR] else [])
          ++ [EvMakedirs TEMP_DIR])).
Proof.
  intros _ Hin Hrm Hmk hardware. subst hardware.
  unfold main_setup, input, get_encoding_args, path_exists, rmtree, makedirs.
  step. change (nl ++ "请输入选项 (1 或 2，回车默认 1): ")%string with mode_prompt.
  rewrite Hin. step.
  destruct (String.eqb (strip line) "2"); step;
    (destruct (host_exists TEMP_DIR w1); step;
     [destruct (host_rmtree TEMP_DIR w1) as [r wr]; injection Hrm as -> ->
     |injection Hrm as <-];
     step; rewrite Hmk; step;
     unfold banner, emit; cbn [trace world];
     rewrite <- ?List.app_assoc; reflexivity).
Qed.

(** X16. A set-up that fails.  If the set-up raises (the mode cannot be
    read, the old scratch directory cannot be removed, the new one cannot
    be created), the exception leaves [main] at once: the failing operation
    is the last event of the run, no tool has been launched and no file
    written. *)
Theorem setup_failure_ends_run (st : state W) (e : exn) :
  fst (main_setup st) = Raise e ->
  main st = (Raise e, snd (main_setup st))
  /\ exists new,
       trace (snd (main st)) = trace st ++ new
       /\ (last new (EvPrint EmptyString) = EvInput mode_prompt
           \/ last new (EvPrint EmptyString) = EvRmtree TEMP_DIR
           \/ last new (EvPrint EmptyString) = EvMakedirs TEMP_DIR)
       /\ launched new = []
       /\ writes new = [].
Proof.
  intros Hraise.
  assert (Hmain : main st = (Raise e, snd (main_setup st))).
  { unfold main, bind. destruct (main_setup st) as [[args | e0] st0];
      cbn [fst snd] in *; [discriminate Hraise | now injection Hraise as ->]. }
  split; [exact Hmain|]. rewrite Hmain. cbn [snd]. clear Hmain.
  destruct (main_setup st) as [r st'] eqn:Hrun. cbn [fst snd] in *. subst r.
  unfold main_setup, input, get_encoding_args, path_exists, rmtree, makedirs
    in Hrun.
  step in Hrun.
  destruct (host_input _ _) as [[line | e0] w1]; step in Hrun.
  2:{ injection Hrun as <- <-. eexists.
      split; [trace_eq|]. split; [now left | split; reflexivity]. }
  destruct (String.eqb (strip line) "2"); step in Hrun;
    (destruct (host_exists TEMP_DIR w1); step in Hrun;
     [destruct (host_rmtree TEMP_DIR w1) as [[[] | e1] w2]; step in Hrun;
      [destruct (host_makedirs TEMP_DIR w2) as [[[] | e2] w3]; step in Hrun;
       [discriminate Hrun|]
      |]
     |destruct (host_makedirs TEMP_DIR w1) as [[[] | e2] w3]; step in Hrun;
      [discriminate Hrun|]]);
    injection Hrun as <- <-; eexists; (split; [trace_eq|]);
    (split; [first [now (right; right) | now (right; left)]
            | split; reflexivity]).
Qed.

End Setup.

(* ================================================================== *)
(** * The further properties on simulated runs *)
(* ================================================================== *)

(** A portrait clip that ffmpeg transcodes. *)
Lemma transcode_outcome_decides_witness :
  let st := Sim.start Sim.all_good in
  let st1 := snd (get_video_dimensions "./b.mp4" st) in
  let args := gpu_video_args ++ common_args in
  let out := "processed_temp/processed_0001.mp4" in
  get_video_dimensions "./b.mp4" st = (Ok (DimsMap ["1080"; "1920"]), st1)
  /\ unpack2 (DimsMap ["1080"; "1920"]) = Ok (1080%Z, 1920%Z)
  /\ 1080%Z <> 0%Z
  /\ host_run (transcode_cmd "./b.mp4" (filters_for 1080 1920) args out)
       (world st1) = (Exited 0 "", Sim.all_good)
  /\ fst (process_video_file "./b.mp4" out args st) = Ok true.
Proof.
  intros st st1 args out.
  assert (Hprobe : get_video_dimensions "./b.mp4" st
                   = (Ok (DimsMap ["1080"; "1920"]), st1))
    by (vm_compute; reflexivity).
  assert (Hdims : unpack2 (DimsMap ["1080"; "1920"]) = Ok (1080%Z, 1920%Z))
    by (vm_compute; reflexivity).
  assert (Hwidth : 1080%Z <> 0%Z) by lia.
  assert (Hrun : host_run (transcode_cmd "./b.mp4" (filters_for 1080 1920)
                             args out) (world st1)
                 = (Exited 0 "", Sim.all_good)) by (vm_compute; reflexivity).
  repeat (split; [assumption|]).
  rewrite (transcode_outcome_decides "./b.mp4" out args st st1
             (DimsMap ["1080"; "1920"]) 1080 1920 (Exited 0 "") Sim.all_good
             Hprobe Hdims Hwidth Hrun).
  reflexivity.
Defined.

(** ffmpeg is not installed: the exception of the launch leaves the call. *)
Lemma normalizer_raises_only_so_witness :
  let st := Sim.start Faults.no_ffmpeg in
  let run := process_video_file "./a.mp4" "processed_temp/processed_0000.mp4"
               (cpu_video_args ++ common_args) st in
  fst run = Raise FileNotFoundError
  /\ exists new,
       trace (snd run) = trace st ++ new
       /\ exists cmd earlier,
            new = earlier ++ [EvRun cmd (RunRaised FileNotFoundError)].
Proof.
  intros st run.
  assert (Hraise : fst run = Raise FileNotFoundError)
    by (vm_compute; reflexivity).
  split; [exact Hraise|].
  destruct (normalizer_raises_only_so "./a.mp4"
              "processed_temp/processed_0000.mp4"
              (cpu_video_args ++ common_args) st FileNotFoundError Hraise)
    as (new & Htr & [(Habs & _) | (_ & Hlast)]).
  - discriminate Habs.
  - exists new. split; [exact Htr | exact Hlast].
Defined.

(** Two clips normalized and merged. *)
Lemma merged_run_ends_with_success_notices_witness :
  let run := main (Sim.start Sim.all_good) in
  In (Exited 0 "") (concat_runs (trace (snd run)))
  /\ fst run = Ok tt
  /\ exists before,
       trace (snd run) = before ++
         [EvRun (concat_cmd "processed_temp/file_list.txt" OUTPUT_FILE)
            (Exited 0 "");
          EvPrint merge_done_notice;
          EvPrint "📂 输出文件: /work/final_merged_video.mp4";
          EvPrint closing_hint].
Proof.
  intros run.
  assert (Hin : In (Exited 0 "") (concat_runs (trace (snd run))))
    by (vm_compute; left; reflexivity).
  split; [exact Hin|].
  destruct (merged_run_ends_with_success_notices (Sim.start Sim.all_good)
              (trace (snd run)) "" eq_refl Hin) as (Hres & before & Hnew & _).
  split; [exact Hres|]. exists before. exact Hnew.
Defined.

(** ffmpeg disappears between the transcodes and the merge. *)
Lemma merge_launch_failure_escapes_witness :
  let run := main (Sim.start Faults.merge_not_launched) in
  In (RunRaised FileNotFoundError) (concat_runs (trace (snd run)))
  /\ is_CalledProcessError FileNotFoundError = false
  /\ fst run = Raise FileNotFoundError.
Proof.
  intros run.
  assert (Hin : In (RunRaised FileNotFoundError)
                  (concat_runs (trace (snd run))))
    by (vm_compute; left; reflexivity).
  assert (He : is_CalledProcessError FileNotFoundError = false)
    by reflexivity.
  split; [exact Hin | split; [exact He|]].
  exact (proj1 (merge_launch_failure_escapes
                  (Sim.start Faults.merge_not_launched) (trace (snd run))
                  FileNotFoundError eq_refl Hin He)).
Defined.

Lemma merge_is_launched_once_after_the_list_witness :
  let run := main (Sim.start Sim.concat_fails) in
  concat_runs (trace (snd run)) <> []
  /\ exists pre rest o,
       trace (snd run)
       = pre ++ EvWrite "processed_temp/file_list.txt"
                  (join nl (map (manifest_entry (W := Sim.world))
                              (ok_outputs pre))) :: rest
       /\ concat_runs (trace (snd run)) = [o]
       /\ launched rest
          = [concat_cmd "processed_temp/file_list.txt" OUTPUT_FILE].
Proof.
  intros run.
  assert (Hrun : concat_runs (trace (snd run)) <> [])
    by (vm_compute; discriminate).
  split; [exact Hrun|].
  destruct (merge_is_launched_once_after_the_list (Sim.start Sim.concat_fails)
              (trace (snd run)) eq_refl Hrun)
    as (pre & rest & o & Hnew & _ & _ & Hone & Hlaunch).
  exists pre, rest, o. auto.
Defined.

(** The list file cannot be written. *)
Lemma list_without_merge_means_failure_witness :
  let run := main (Rig.start Rig.disk_full) in
  writes (trace (snd run)) <> []
  /\ concat_runs (trace (snd run)) = []
  /\ exists e, fst run = Raise e.
Proof.
  intros run.
  assert (Hw : writes (trace (snd run)) <> []) by (vm_compute; discriminate).
  assert (Hc : concat_runs (trace (snd run)) = []) by (vm_compute; reflexivity).
  split; [exact Hw | split; [exact Hc|]].
  destruct (list_without_merge_means_failure (Rig.start Rig.disk_full)
              (trace (snd run)) eq_refl Hw Hc) as (e & _ & He & _).
  exists e. exact He.
Defined.

(** A second run in the same directory, hardware mode typed between
    blanks. *)
Lemma setup_selects_mode_and_resets_scratch_witness :
  let st := Rig.start Rig.rerun in
  forallb (fun c => (nat_of_ascii c <? 128)%nat) (list_ascii_of_string " 2 ")
  = true
  /\ host_input mode_prompt (world st) = (Ok " 2 ", Rig.rerun)
  /\ (if host_exists TEMP_DIR Rig.rerun
      then host_rmtree TEMP_DIR Rig.rerun
      else (Ok tt, Rig.rerun)) = (Ok tt, Rig.rerun)
  /\ host_makedirs TEMP_DIR Rig.rerun = (Ok tt, Rig.rerun)
  /\ main_setup st =
       (Ok (gpu_video_args ++ common_args),
        mkState Rig.rerun
          (banner ++ [EvInput mode_prompt;
                      EvPrint "⚡ 已启用 NVIDIA GPU 加速 (h264_nvenc)";
                      EvRmtree TEMP_DIR;
                      EvMakedirs TEMP_DIR])).
Proof.
  intros st.
  assert (Hascii : forallb (fun c => (nat_of_ascii c <? 128)%nat)
                     (list_ascii_of_string " 2 ") = true) by reflexivity.
  assert (Hin : host_input mode_prompt (world st) = (Ok " 2 ", Rig.rerun))
    by reflexivity.
  assert (Hrm : (if host_exists TEMP_DIR Rig.rerun
                 then host_rmtree TEMP_DIR Rig.rerun
                 else (Ok tt, Rig.rerun)) = (Ok tt, Rig.rerun))
    by reflexivity.
  assert (Hmk : host_makedirs TEMP_DIR Rig.rerun = (Ok tt, Rig.rerun))
    by reflexivity.
  split; [exact Hascii | split; [exact Hin | split; [exact Hrm
    | split; [exact Hmk|]]]].
  rewrite (setup_selects_mode_and_resets_scratch st " 2 " Rig.rerun Rig.rerun
             Rig.rerun Hascii Hin Hrm Hmk).
  reflexivity.
Defined.

(** The old scratch directory cannot be removed. *)
Lemma setup_failure_ends_run_witness :
  let st := Rig.start Rig.scratch_locked in
  fst (main_setup st) = Raise OSError
  /\ fst (main st) = Raise OSError
  /\ launched (trace (snd (main st))) = [].
Proof.
  intros st.
  assert (Hraise : fst (main_setup st) = Raise OSError)
    by (vm_compute; reflexivity).
  split; [exact Hraise|].
  destruct (setup_failure_ends_run st OSError Hraise)
    as (Hmain & new & Htr & _ & Hlaunched & _).
  split; [now rewrite Hmain|].
  change (trace st) with (@nil event) in Htr. cbn [List.app] in Htr.
  now rewrite Htr.
Defined.

(* ================================================================== *)
(** * The filter chain handed to ffmpeg *)
(* ================================================================== *)

Section ChainInUse.

Context {W : Type} `{Host W}.

(** C1. For every clip whose probed size reaches the planning (the probed
    width is not 0), [process_video_file] launches ffmpeg once, with the
    comma-joined list [filters] as its [-vf] argument.  When height > width
    the first entry of that list is the counter-clockwise rotation
    [transpose=2] and the argument is the rotation followed by the
    scale+pad entry; when height <= width no entry is the rotation, the
    argument does not mention [transpose] and is the scale+pad entry
    alone. *)
Theorem rotation_first_iff_portrait (input_file output_path : string)
    (encoding_args : list string) (st st1 : state W) (dims : dims_value)
    (width height : Z) :
  get_video_dimensions input_file st = (Ok dims, st1) ->
  unpack2 dims = Ok (width, height) ->
  width <> 0%Z ->
  exists new filters,
    trace (snd (process_video_file input_file output_path encoding_args st))
    = trace st1 ++ new
    /\ transcode_runs new =
         [["ffmpeg"; "-i"; input_file; "-vf"; join "," filters]
            ++ encoding_args ++ [output_path]]
    /\ ((height > width)%Z ->
          hd_error filters = Some "transpose=2"
          /\ join "," filters =
               "transpose=2,scale=1920:1080:force_original_aspect_ratio=decrease,pad=1920:1080:(ow-iw)/2:(oh-ih)/2,setsar=1")
    /\ ((height <= width)%Z ->
          ~ In "transpose=2" filters
          /\ is_infix "transpose" (join "," filters) = false
          /\ join "," filters =
               "scale=1920:1080:force_original_aspect_ratio=decrease,pad=1920:1080:(ow-iw)/2:(oh-ih)/2,setsar=1").
Proof.
  intros Hprobe Hdims Hwidth.
  destruct (process_video_file_chain input_file output_path encoding_args
              st st1 dims width height Hprobe Hdims Hwidth)
    as (new & Htr & Hruns).
  exists new, (filters_for width height).
  split; [exact Htr | split; [exact Hruns|]].
  split; intros Hcmp.
  - rewrite filters_for_portrait by exact Hcmp. split; reflexivity.
  - rewrite filters_for_landscape by exact Hcmp.
    split; [|split; reflexivity].
    intros [Heq | []]. discriminate Heq.
Qed.

(** C2. For every clip whose probed size reaches the planning,
    [process_video_file] launches ffmpeg once, and the list joined into its
    [-vf] argument ends with the compound scale+pad entry and holds it
    once: before it comes nothing or the rotation alone.  The entry names
    the configured canvas (1920 x 1080) and consists of three
    comma-separated steps: a scale to the canvas with
    [force_original_aspect_ratio=decrease], a pad to the canvas with the
    offsets [(ow-iw)/2] and [(oh-ih)/2], and [setsar=1]. *)
Theorem ffmpeg_chain_ends_with_scale_pad (input_file output_path : string)
    (encoding_args : list string) (st st1 : state W) (dims : dims_value)
    (width height : Z) :
  get_video_dimensions input_file st = (Ok dims, st1) ->
  unpack2 dims = Ok (width, height) ->
  width <> 0%Z ->
  exists new front,
    trace (snd (process_video_file input_file output_path encoding_args st))
    = trace st1 ++ new
    /\ transcode_runs new =
         [["ffmpeg"; "-i"; input_file; "-vf";
           join "," (front ++ [scale_filter])]
            ++ encoding_args ++ [output_path]]
    /\ (front = [] \/ front = ["transpose=2"])
    /\ ~ In scale_filter front
    /\ count_occ string_dec (front ++ [scale_filter]) scale_filter = 1
    /\ split "," scale_filter =
         [("scale=" ++ str_of_int TARGET_WIDTH ++ ":" ++ str_of_int TARGET_HEIGHT
             ++ ":force_original_aspect_ratio=decrease")%string;
          ("pad=" ++ str_of_int TARGET_WIDTH ++ ":" ++ str_of_int TARGET_HEIGHT
             ++ ":(ow-iw)/2:(oh-ih)/2")%string;
          "setsar=1"]
    /\ scale_filter =
         "scale=1920:1080:force_original_aspect_ratio=decrease,pad=1920:1080:(ow-iw)/2:(oh-ih)/2,setsar=1".
Proof.
  intros Hprobe Hdims Hwidth.
  destruct (process_video_file_chain input_file output_path encoding_args
              st st1 dims width height Hprobe Hdims Hwidth)
    as (new & Htr & Hruns).
  unfold filters_for, build_filters in Hruns.
  exists new, (if (height >? width)%Z then [rotate_filter] else []).
  split; [exact Htr | split; [exact Hruns|]].
  destruct (height >? width)%Z.
  - split; [now right|]. split; [|repeat split].
    intros [Heq | []]. discriminate Heq.
  - split; [now left|]. split; [intros [] | repeat split].
Qed.

End ChainInUse.

(** A portrait clip and a landscape clip of the same run. *)
Lemma rotation_first_iff_portrait_witness :
  let st := Sim.start Sim.all_good in
  let args := gpu_video_args ++ common_args in
  let portrait :=
    process_video_file "./b.mp4" "processed_temp/processed_0001.mp4" args st in
  let landscape :=
    process_video_file "./a.mp4" "processed_temp/processed_0000.mp4" args st in
  (get_video_dimensions "./b.mp4" st
   = (Ok (DimsMap ["1080"; "1920"]), snd (get_video_dimensions "./b.mp4" st))
   /\ unpack2 (DimsMap ["1080"; "1920"]) = Ok (1080%Z, 1920%Z)
   /\ 1080%Z <> 0%Z
   /\ (1920 > 1080)%Z
   /\ exists new filters,
        transcode_runs new =
          [["ffmpeg"; "-i"; "./b.mp4"; "-vf"; join "," filters]
             ++ args ++ ["processed_temp/processed_0001.mp4"]]
        /\ trace (snd portrait)
           = trace (snd (get_video_dimensions "./b.mp4" st)) ++ new
        /\ hd_error filters = Some "transpose=2")
  /\ (get_video_dimensions "./a.mp4" st
      = (Ok (DimsMap ["1280"; "720"]), snd (get_video_dimensions "./a.mp4" st))
      /\ unpack2 (DimsMap ["1280"; "720"]) = Ok (1280%Z, 720%Z)
      /\ 1280%Z <> 0%Z
      /\ (720 <= 1280)%Z
      /\ exists new filters,
           transcode_runs new =
             [["ffmpeg"; "-i"; "./a.mp4"; "-vf"; join "," filters]
                ++ args ++ ["processed_temp/processed_0000.mp4"]]
           /\ trace (snd landscape)
              = trace (snd (get_video_dimensions "./a.mp4" st)) ++ new
           /\ ~ In "transpose=2" filters).
Proof.
  intros st args portrait landscape.
  assert (Hpb : get_video_dimensions "./b.mp4" st
                = (Ok (DimsMap ["1080"; "1920"]),
                   snd (get_video_dimensions "./b.mp4" st)))
    by (vm_compute; reflexivity).
  assert (Hdb : unpack2 (DimsMap ["1080"; "1920"]) = Ok (1080%Z, 1920%Z))
    by (vm_compute; reflexivity).
  assert (Hwb : 1080%Z <> 0%Z) by lia.
  assert (Hcb : (1920 > 1080)%Z) by lia.
  assert (Hpa : get_video_dimensions "./a.mp4" st
                = (Ok (DimsMap ["1280"; "720"]),
                   snd (get_video_dimensions "./a.mp4" st)))
    by (vm_compute; reflexivity).
  assert (Hda : unpack2 (DimsMap ["1280"; "720"]) = Ok (1280%Z, 720%Z))
    by (vm_compute; reflexivity).
  assert (Hwa : 1280%Z <> 0%Z) by lia.
  assert (Hca : (720 <= 1280)%Z) by lia.
  split.
  - repeat (split; [assumption|]).
    destruct (rotation_first_iff_portrait "./b.mp4"
                "processed_temp/processed_0001.mp4" args st _ _ 1080 1920
                Hpb Hdb Hwb) as (new & filters & Htr & Hruns & Hport & _).
    exists new, filters. split; [exact Hruns | split; [exact Htr|]].
    exact (proj1 (Hport Hcb)).
  - repeat (split; [assumption|]).
    destruct (rotation_first_iff_portrait "./a.mp4"
                "processed_temp/processed_0000.mp4" args st _ _ 1280 720
                Hpa Hda Hwa) as (new & filters & Htr & Hruns & _ & Hland).
    exists new, filters. split; [exact Hruns | split; [exact Htr|]].
    exact (proj1 (Hland Hca)).
Defined.

(** The portrait clip again: rotation, then scale+pad. *)
Lemma ffmpeg_chain_ends_with_scale_pad_witness :
  let st := Sim.start Sim.all_good in
  let args := gpu_video_args ++ common_args in
  let run :=
    process_video_file "./b.mp4" "processed_temp/processed_0001.mp4" args st in
  get_video_dimensions "./b.mp4" st
  = (Ok (DimsMap ["1080"; "1920"]), snd (get_video_dimensions "./b.mp4" st))
  /\ unpack2 (DimsMap ["1080"; "1920"]) = Ok (1080%Z, 1920%Z)
  /\ 1080%Z <> 0%Z
  /\ exists new front,
       trace (snd run) = trace (snd (get_video_dimensions "./b.mp4" st)) ++ new
       /\ transcode_runs new =
            [["ffmpeg"; "-i"; "./b.mp4"; "-vf";
              join "," (front ++ [scale_filter])]
               ++ args ++ ["processed_temp/processed_0001.mp4"]]
       /\ ~ In scale_filter front.
Proof.
  intros st args run.
  assert (Hp : get_video_dimensions "./b.mp4" st
               = (Ok (DimsMap ["1080"; "1920"]),
                  snd (get_video_dimensions "./b.mp4" st)))
    by (vm_compute; reflexivity).
  assert (Hd : unpack2 (DimsMap ["1080"; "1920"]) = Ok (1080%Z, 1920%Z))
    by (vm_compute; reflexivity).
  assert (Hw : 1080%Z <> 0%Z) by lia.
  repeat (split; [assumption|]).
  destruct (ffmpeg_chain_ends_with_scale_pad "./b.mp4"
              "processed_temp/processed_0001.mp4" args st _ _ 1080 1920
              Hp Hd Hw) as (new & front & Htr & Hruns & _ & Hfront & _).
  exists new, front. auto.
Defined.
